(** * Image editor: history and live-preview state machine

    A shallow embedding of the image editor's stateful core
    ([models/image.py], [processors/image_processor.py],
    [manager/filter_manager.py] and the slider handlers of
    [gui/main_window.py]) together with the properties of its undo/redo
    history and of its preview-from-baseline mode.

    Python objects that are mutated and shared (the [Image] held both by the
    window and by the filter manager) live in an explicit object store and
    are named by references.  NumPy arrays are never written in place by the
    source (every hand-off is a [.copy()]), so arrays are plain values.
    Exceptions are explicit: a computation returns [Ok v] or [Raise e], and
    keeps every state change made before the exception was raised. *)

From Stdlib Require Import ZArith List String Lia Bool.
From Stdlib Require Import Floats.PrimFloat Floats.FloatOps Floats.SpecFloat.
From Stdlib Require Import Numbers.Cyclic.Int63.Uint63.
From stdpp Require Import base option gmap strings list.

Import ListNotations.
Local Open Scope string_scope.
Local Open Scope Z_scope.

(** ** Python values, exceptions and parameter bags *)

(** The exception classes the modelled code can raise.  [DanglingRef] has no
    Python counterpart: it is what a dereference of an unallocated reference
    yields, which no state built by the program's constructors contains. *)
Inductive exn : Type :=
| ValueError
| TypeError
| AttributeError
| IndexError
| OverflowError
| cv2_error
| DanglingRef.

Inductive pyresult (A : Type) : Type :=
| Ok (a : A)
| Raise (e : exn).
Arguments Ok {A} a.
Arguments Raise {A} e.

(** Values found in a filter's keyword arguments: the types the filters'
    signatures annotate ([int], [float], [str], [None]).  A [float] is an
    IEEE 754 binary64 number, as in CPython. *)
Inductive pyval : Type :=
| PInt (z : Z)
| PFloat (f : float)
| PStr (s : string)
| PNone.

(** [**kwargs]: a dict from names to values, in insertion order. *)
Definition kwargs : Type := list (string * pyval).

Fixpoint kw_get (kw : kwargs) (key : string) (default : pyval) : pyval :=
  match kw with
  | [] => default
  | (k, v) :: rest => if String.eqb k key then v else kw_get rest key default
  end.

Definition kw_has (kw : kwargs) (key : string) : bool :=
  existsb (fun kv => String.eqb (fst kv) key) kw.

(** Truthiness of a value in a condition ([if width and height:]). *)
Definition truthy (v : pyval) : bool :=
  match v with
  | PInt z => negb (z =? 0)
  | PFloat f => negb (PrimFloat.eqb f 0%float)
  | PStr s => negb (String.eqb s "")
  | PNone => false
  end.

(** A string of the operation log.  [PyStr s] is the text [s];
    [PyStrRepr s kw] is the text [s] followed by Python's rendering of the
    dict [kw] (an f-string field [{kwargs}]), kept symbolic. *)
Inductive pystr : Type :=
| PyStr (s : string)
| PyStrRepr (prefix : string) (kw : kwargs).

(** [int(x)] on a float: truncation toward zero; infinities and NaN raise. *)
Definition py_int_of_float (f : float) : pyresult Z :=
  match Prim2SF f with
  | S754_zero _ => Ok 0
  | S754_infinity _ => Raise OverflowError
  | S754_nan => Raise ValueError
  | S754_finite s m e =>
      let mag := if 0 <=? e then Z.pos m * 2 ^ e else Z.pos m / 2 ^ (- e) in
      Ok (if s then - mag else mag)
  end.

(** [float(z)] for an [int]: rounding to nearest, ties to even; an [int]
    beyond the largest float is an [OverflowError]. *)
Definition py_float_of_Z (z : Z) : pyresult float :=
  match binary_normalize prec emax z 0 false with
  | S754_infinity _ => Raise OverflowError
  | sf => Ok (SF2Prim sf)
  end.

(** [str.lower()] on ASCII text. *)
Definition ascii_lower (c : Ascii.ascii) : Ascii.ascii :=
  let n := Ascii.nat_of_ascii c in
  if (Nat.leb 65 n && Nat.leb n 90)%bool then Ascii.ascii_of_nat (n + 32) else c.

Fixpoint str_lower (s : string) : string :=
  match s with
  | EmptyString => EmptyString
  | String c rest => String (ascii_lower c) (str_lower rest)
  end.

(** ** NumPy arrays *)

(** An array of 8-bit samples: its shape and its samples in row-major
    order.  An image is [shape = [height; width; channels]]. *)
Record ndarray : Type := mk_ndarray {
  shape : list nat;
  data : list Z
}.

(** [a.size]: the product of the dimensions. *)
Definition np_size (a : ndarray) : nat := fold_right Nat.mul 1%nat (shape a).

(** [a.copy()]: arrays are values here, so a copy is the array itself. *)
Definition np_copy (a : ndarray) : ndarray := a.

(** [h, w = a.shape[:2]]: unpacking needs at least two axes, otherwise the
    tuple assignment raises [ValueError]. *)
Definition shape2 (a : ndarray) : pyresult (nat * nat) :=
  match shape a with
  | h :: w :: _ => Ok (h, w)
  | _ => Raise ValueError
  end.

(** [a.shape[i]]: [IndexError] past the last axis. *)
Definition shape_at (a : ndarray) (i : nat) : pyresult nat :=
  match nth_error (shape a) i with
  | Some n => Ok n
  | None => Raise IndexError
  end.

(** Wrap-around of a 16-bit signed sample. *)
Definition wrap16 (x : Z) : Z := (x + 32768) mod 65536 - 32768.

(** [np.clip(x, 0, 255)] on one sample. *)
Definition clip_u8 (x : Z) : Z := Z.max 0 (Z.min 255 x).

(** ** Computations that mutate state and may raise *)

(** A method body: from the state before to a result (or an exception) and
    the state after.  An exception keeps the state reached so far. *)
Definition M (S A : Type) : Type := S -> pyresult A * S.

Definition ret {S A : Type} (a : A) : M S A := fun s => (Ok a, s).

Definition raise {S A : Type} (e : exn) : M S A := fun s => (Raise e, s).

Definition bind {S A B : Type} (m : M S A) (k : A -> M S B) : M S B :=
  fun s =>
    match m s with
    | (Ok a, s') => k a s'
    | (Raise e, s') => (Raise e, s')
    end.

(** [try: body except Exception as e: handler e]. *)
Definition try_except {S A : Type} (body : M S A) (handler : exn -> M S A) : M S A :=
  fun s =>
    match body s with
    | (Ok a, s') => (Ok a, s')
    | (Raise e, s') => handler e s'
    end.

Definition gets {S A : Type} (f : S -> A) : M S A := fun s => (Ok (f s), s).

Definition modify {S : Type} (f : S -> S) : M S unit := fun s => (Ok tt, f s).

(** A pure call that may raise. *)
Definition call {S A : Type} (r : pyresult A) : M S A := fun s => (r, s).

Declare Scope py_scope.
Delimit Scope py_scope with py.
Notation "'get!' x <~ m ;; k" := (bind m (fun x => k))
  (at level 10, x name, m at level 99, k at level 200) : py_scope.
Notation "'run!' m ;; k" := (bind m (fun _ => k))
  (at level 10, m at level 99, k at level 200) : py_scope.

(** Sequencing of pure calls that may raise. *)
Definition rbind {A B : Type} (r : pyresult A) (k : A -> pyresult B) : pyresult B :=
  match r with
  | Ok a => k a
  | Raise e => Raise e
  end.

(** ** The image library *)

Inductive color_code : Type := COLOR_BGR2GRAY | COLOR_GRAY2BGR.

Inductive rotate_code : Type :=
| ROTATE_90_CLOCKWISE
| ROTATE_180
| ROTATE_90_COUNTERCLOCKWISE.

(** The routines of OpenCV and NumPy whose arithmetic (filter kernels,
    interpolation, colour weights, floating-point samples) lies outside this
    development.  Each is a function of its arguments and may raise. *)
Record OpenCV : Type := {
  (** [cv2.imread(path)]: the decoded image, or [None]. *)
  imread : string -> option ndarray;
  (** [cv2.cvtColor(image, code)]. *)
  cvtColor : ndarray -> color_code -> pyresult ndarray;
  (** [cv2.GaussianBlur(image, (k, k), 0)]. *)
  GaussianBlur : ndarray -> Z -> pyresult ndarray;
  (** [cv2.Canny(gray, threshold1, threshold2)]. *)
  Canny : ndarray -> pyval -> pyval -> pyresult ndarray;
  (** [cv2.warpAffine(image, cv2.getRotationMatrix2D(center, angle, 1.0), size)]. *)
  warp_rotate : ndarray -> nat * nat -> pyval -> nat * nat -> pyresult ndarray;
  (** [cv2.resize(image, (w, h), interpolation=cv2.INTER_LINEAR)] for a
      positive target size. *)
  resize_linear : ndarray -> Z -> Z -> pyresult ndarray;
  (** [convert_to_uint8(image.astype(np.int16) + f)] for a float [f]. *)
  add_float : ndarray -> float -> pyresult ndarray;
  (** [convert_to_uint8(image.astype(np.float32) * v)] for a number [v]. *)
  scale_float32 : ndarray -> pyval -> pyresult ndarray
}.

(** The pixel (its [c] samples) at row [i], column [j] of an image with
    rows of [w] pixels. *)
Definition pixel_at (a : ndarray) (w c i j : nat) : list Z :=
  firstn c (skipn ((i * w + j) * c) (data a)).

(** The image of [h'] rows and [w'] columns whose pixel [(i, j)] is the
    source pixel [src i j]. *)
Definition remap (a : ndarray) (w c h' w' : nat) (src : nat -> nat -> nat * nat) : list Z :=
  flat_map
    (fun i => flat_map (fun j => let '(si, sj) := src i j in pixel_at a w c si sj) (seq 0 w'))
    (seq 0 h').

(** How OpenCV reads an array as an image: rows, columns, samples per pixel,
    and the trailing axes of the result.  Two axes are a single-channel
    image; three axes are a multi-channel image of at most 512 channels. *)
Definition image_layout (a : ndarray) : option (nat * nat * nat * list nat) :=
  match shape a with
  | [h; w] => Some (h, w, 1%nat, [])
  | [h; w; c] => if Nat.leb c 512 then Some (h, w, c, [c]) else None
  | _ => None
  end.

(** [cv2.rotate(image, code)]: a permutation of the pixels. *)
Definition cv2_rotate (image : ndarray) (code : rotate_code) : pyresult ndarray :=
  match image_layout image with
  | None => Raise cv2_error
  | Some (h, w, c, tail) =>
      match code with
      | ROTATE_90_CLOCKWISE =>
          Ok (mk_ndarray (w :: h :: tail)
                (remap image w c w h (fun i j => ((h - 1 - j)%nat, i))))
      | ROTATE_180 =>
          Ok (mk_ndarray (h :: w :: tail)
                (remap image w c h w (fun i j => ((h - 1 - i)%nat, (w - 1 - j)%nat))))
      | ROTATE_90_COUNTERCLOCKWISE =>
          Ok (mk_ndarray (w :: h :: tail)
                (remap image w c w h (fun i j => (j, (w - 1 - i)%nat))))
      end
  end.

(** [cv2.flip(image, flipCode)]: positive mirrors left-right, zero mirrors
    top-bottom, negative does both. *)
Definition cv2_flip (image : ndarray) (flipCode : Z) : pyresult ndarray :=
  match image_layout image with
  | None => Raise cv2_error
  | Some (h, w, c, tail) =>
      let src i j :=
        if 0 <? flipCode then (i, (w - 1 - j)%nat)
        else if flipCode =? 0 then ((h - 1 - i)%nat, j)
        else ((h - 1 - i)%nat, (w - 1 - j)%nat) in
      Ok (mk_ndarray (h :: w :: tail) (remap image w c h w src))
  end.

(** [cv2.resize(image, (w, h), interpolation=cv2.INTER_LINEAR)]: OpenCV
    rejects a target size with a non-positive component (no scale factors
    are given to derive one from). *)
Definition cv2_resize (cv : OpenCV) (image : ndarray) (w h : Z) : pyresult ndarray :=
  if (0 <? w) && (0 <? h) then resize_linear cv image w h else Raise cv2_error.

(** ** processors/image_processor.py *)

(** [ImageProcessor.validate_image]: the argument is an array here, so what
    remains is [image.size > 0]. *)
Definition validate_image (image : ndarray) : bool := Nat.ltb 0 (np_size image).

(** A filter object: what [FilterProcessor] and its subclasses expose. *)
Record FilterProcessor : Type := {
  name : string;
  description : string;
  apply : ndarray -> kwargs -> pyresult ndarray
}.

(** [obj.apply(image, **kwargs)]: a keyword that names a positional
    parameter already bound is a [TypeError] of the call itself. *)
Definition method_call (body : ndarray -> kwargs -> pyresult ndarray)
    (image : ndarray) (kw : kwargs) : pyresult ndarray :=
  if kw_has kw "image" || kw_has kw "self" then Raise TypeError else body image kw.

(** [FilterProcessor.apply]: the base implementation. *)
Definition FilterProcessor_apply (image : ndarray) (kw : kwargs) : pyresult ndarray :=
  if negb (validate_image image) then Raise ValueError else Ok image.

(** [BlurFilter.apply]: the kernel size derived from the intensity. *)
Definition kernel_size (intensity : Z) : Z :=
  Z.max 1 (if intensity mod 2 =? 1 then intensity else intensity + 1).

(** [BrightnessAdjustment.apply] on an [int] offset.  Under NumPy's
    promotion rules (NEP 50) the sum stays 16-bit: an offset outside the
    16-bit range is an [OverflowError], and a sum outside it wraps. *)
Definition brightness_int (image : ndarray) (value : Z) : pyresult ndarray :=
  if (-32768 <=? value) && (value <=? 32767) then
    Ok (mk_ndarray (shape image) (map (fun p => clip_u8 (wrap16 (p + value))) (data image)))
  else Raise OverflowError.

(** [rotation_map]: the three angles with a dedicated rotation.  A float
    equal to one of the keys finds it too, as dict lookup compares by
    value. *)
Definition rotation_map (angle : pyval) : option rotate_code :=
  let of_Z z :=
    if z =? 90 then Some ROTATE_90_CLOCKWISE
    else if z =? 180 then Some ROTATE_180
    else if z =? 270 then Some ROTATE_90_COUNTERCLOCKWISE
    else None in
  match angle with
  | PInt z => of_Z z
  | PFloat f =>
      if PrimFloat.eqb f 90%float then Some ROTATE_90_CLOCKWISE
      else if PrimFloat.eqb f 180%float then Some ROTATE_180
      else if PrimFloat.eqb f 270%float then Some ROTATE_90_COUNTERCLOCKWISE
      else None
  | _ => None
  end.

(** [int(image.shape[axis] * scale)]. *)
Definition scaled_dim (image : ndarray) (axis : nat) (scale : pyval) : pyresult Z :=
  rbind (shape_at image axis) (fun n =>
    match scale with
    | PInt s => Ok (Z.of_nat n * s)
    | PFloat f =>
        rbind (py_float_of_Z (Z.of_nat n)) (fun x => py_int_of_float (PrimFloat.mul x f))
    | _ => Raise TypeError
    end).

Section Filters.
Context (cv : OpenCV).

Definition GrayscaleFilter_apply (image : ndarray) (kw : kwargs) : pyresult ndarray :=
  if negb (validate_image image) then Raise ValueError
  else rbind (cvtColor cv image COLOR_BGR2GRAY) (fun gray => cvtColor cv gray COLOR_GRAY2BGR).

Definition BlurFilter_apply (image : ndarray) (kw : kwargs) : pyresult ndarray :=
  if negb (validate_image image) then Raise ValueError
  else match kw_get kw "intensity" (PInt 5) with
       | PInt intensity => GaussianBlur cv image (kernel_size intensity)
       | _ => Raise TypeError
       end.

Definition EdgeDetectionFilter_apply (image : ndarray) (kw : kwargs) : pyresult ndarray :=
  if negb (validate_image image) then Raise ValueError
  else rbind (cvtColor cv image COLOR_BGR2GRAY) (fun gray =>
       rbind (Canny cv gray (kw_get kw "threshold1" (PInt 100)) (kw_get kw "threshold2" (PInt 200)))
         (fun edges => cvtColor cv edges COLOR_GRAY2BGR)).

Definition BrightnessAdjustment_apply (image : ndarray) (kw : kwargs) : pyresult ndarray :=
  if negb (validate_image image) then Raise ValueError
  else match kw_get kw "value" (PInt 0) with
       | PInt value => brightness_int image value
       | PFloat f => add_float cv image f
       | _ => Raise TypeError
       end.

Definition ContrastAdjustment_apply (image : ndarray) (kw : kwargs) : pyresult ndarray :=
  if negb (validate_image image) then Raise ValueError
  else match kw_get kw "value" (PFloat 1%float) with
       | PInt z => scale_float32 cv image (PInt z)
       | PFloat f => scale_float32 cv image (PFloat f)
       | _ => Raise TypeError
       end.

Definition RotationFilter_apply (image : ndarray) (kw : kwargs) : pyresult ndarray :=
  if negb (validate_image image) then Raise ValueError
  else let angle := kw_get kw "angle" (PInt 90) in
       match rotation_map angle with
       | Some code => cv2_rotate image code
       | None =>
           rbind (shape2 image) (fun '(height, width) =>
             warp_rotate cv image ((width / 2)%nat, (height / 2)%nat) angle (width, height))
       end.

Definition FlipFilter_apply (image : ndarray) (kw : kwargs) : pyresult ndarray :=
  if negb (validate_image image) then Raise ValueError
  else match kw_get kw "direction" (PStr "horizontal") with
       | PStr direction =>
           if String.eqb (str_lower direction) "horizontal" then cv2_flip image 1
           else if String.eqb (str_lower direction) "vertical" then cv2_flip image 0
           else cv2_flip image (-1)
       | _ => Raise AttributeError
       end.

Definition ResizeFilter_apply (image : ndarray) (kw : kwargs) : pyresult ndarray :=
  if negb (validate_image image) then Raise ValueError
  else let width := kw_get kw "width" PNone in
       let height := kw_get kw "height" PNone in
       let scale := kw_get kw "scale" (PFloat 1%float) in
       if truthy width && truthy height then
         match width, height with
         | PInt w, PInt h => cv2_resize cv image w h
         | _, _ => Raise TypeError
         end
       else
         rbind (scaled_dim image 1 scale) (fun new_width =>
         rbind (scaled_dim image 0 scale) (fun new_height =>
           cv2_resize cv image new_width new_height)).

(** The eight filter objects, with the names and descriptions their
    constructors pass up. *)
Definition GrayscaleFilter : FilterProcessor :=
  {| name := "Grayscale"; description := "Converts image to black and white";
     apply := method_call GrayscaleFilter_apply |}.

Definition BlurFilter : FilterProcessor :=
  {| name := "Blur"; description := "Applies Gaussian blur effect";
     apply := method_call BlurFilter_apply |}.

Definition EdgeDetectionFilter : FilterProcessor :=
  {| name := "Edge Detection"; description := "Detects edges using Canny algorithm";
     apply := method_call EdgeDetectionFilter_apply |}.

Definition BrightnessAdjustment : FilterProcessor :=
  {| name := "Brightness"; description := "Adjusts image brightness";
     apply := method_call BrightnessAdjustment_apply |}.

Definition ContrastAdjustment : FilterProcessor :=
  {| name := "Contrast"; description := "Adjusts image contrast";
     apply := method_call ContrastAdjustment_apply |}.

Definition RotationFilter : FilterProcessor :=
  {| name := "Rotation"; description := "Rotates image by specified angle";
     apply := method_call RotationFilter_apply |}.

Definition FlipFilter : FilterProcessor :=
  {| name := "Flip"; description := "Flips image horizontally or vertically";
     apply := method_call FlipFilter_apply |}.

Definition ResizeFilter : FilterProcessor :=
  {| name := "Resize"; description := "Resizes image to specified dimensions";
     apply := method_call ResizeFilter_apply |}.

End Filters.

(** ** models/image.py *)

Module Image.

(** An [Image] object.  The two buffers are [None] between the first lines
    of the constructor and the end of [_load_image]. *)
Record t : Type := mk {
  _filepath : string;
  _original_image : option ndarray;
  _current_image : option ndarray;
  _width : nat;
  _height : nat
}.

Definition with_original (a : option ndarray) (self : t) : t :=
  mk (_filepath self) a (_current_image self) (_width self) (_height self).

Definition with_current (a : option ndarray) (self : t) : t :=
  mk (_filepath self) (_original_image self) a (_width self) (_height self).

(** [self._height, self._width = hw]. *)
Definition with_dims (hw : nat * nat) (self : t) : t :=
  mk (_filepath self) (_original_image self) (_current_image self) (snd hw) (fst hw).

Definition _load_image (cv : OpenCV) : M t unit :=
  (get! path <~ gets _filepath ;;
   match imread cv path with
   | None => raise ValueError
   | Some image =>
       run! modify (with_original (Some (np_copy image))) ;;
       run! modify (with_current (Some (np_copy image))) ;;
       get! hw <~ call (shape2 image) ;;
       modify (with_dims hw)
   end)%py.

(** [Image(filepath)]: the new object, unless loading raises. *)
Definition __init__ (cv : OpenCV) (filepath : string) : pyresult t :=
  match _load_image cv (mk filepath None None 0 0) with
  | (Ok _, self) => Ok self
  | (Raise e, _) => Raise e
  end.

Definition filepath : M t string := gets _filepath.

(** [None.copy()] is an [AttributeError]. *)
Definition copy_of (a : option ndarray) : pyresult ndarray :=
  match a with
  | Some a => Ok (np_copy a)
  | None => Raise AttributeError
  end.

Definition original_image : M t ndarray :=
  (get! a <~ gets _original_image ;; call (copy_of a))%py.

Definition current_image : M t ndarray :=
  (get! a <~ gets _current_image ;; call (copy_of a))%py.

(** The [current_image] setter. *)
Definition set_current_image (image : ndarray) : M t unit :=
  (run! modify (with_current (Some (np_copy image))) ;;
   get! hw <~ call (shape2 image) ;;
   modify (with_dims hw))%py.

Definition width : M t nat := gets _width.

Definition height : M t nat := gets _height.

Definition dimensions : M t (nat * nat) := gets (fun self => (_width self, _height self)).

Definition reset_to_original : M t unit :=
  (get! a <~ original_image ;;
   run! modify (with_current (Some a)) ;;
   get! o <~ gets _original_image ;;
   get! hw <~ call (rbind (copy_of o) shape2) ;;
   modify (with_dims hw))%py.

Definition update_original : M t unit :=
  (get! a <~ current_image ;; modify (with_original (Some a)))%py.

End Image.

(** ** The object store *)

Definition ref : Type := nat.

(** [list.pop()]: the last element and the list without it. *)
Definition list_pop {A : Type} (l : list A) : option (A * list A) :=
  match rev l with
  | [] => None
  | x :: r => Some (x, rev r)
  end.

(** ** manager/filter_manager.py *)

Module FilterManager.

(** A [FilterManager] object: the registry of [FilterRegistry], the log of
    [HistoryTracker], and its own three attributes. *)
Record t : Type := mk {
  _registry : gmap string FilterProcessor;
  _history : list pystr;
  _current_image : option ref;
  _undo_stack : list ndarray;
  _redo_stack : list ndarray
}.

Definition with_registry (g : gmap string FilterProcessor) (self : t) : t :=
  mk g (_history self) (_current_image self) (_undo_stack self) (_redo_stack self).

Definition with_history (h : list pystr) (self : t) : t :=
  mk (_registry self) h (_current_image self) (_undo_stack self) (_redo_stack self).

Definition with_current (r : option ref) (self : t) : t :=
  mk (_registry self) (_history self) r (_undo_stack self) (_redo_stack self).

Definition with_undo (u : list ndarray) (self : t) : t :=
  mk (_registry self) (_history self) (_current_image self) u (_redo_stack self).

Definition with_redo (u : list ndarray) (self : t) : t :=
  mk (_registry self) (_history self) (_current_image self) (_undo_stack self) u.

End FilterManager.

(** The objects a manager's methods can reach: the [Image] objects, by
    reference, and the manager itself. *)
Record World : Type := mk_World {
  heap : gmap ref Image.t;
  next_ref : ref;
  manager : FilterManager.t
}.

Definition with_manager (f : FilterManager.t -> FilterManager.t) (w : World) : World :=
  mk_World (heap w) (next_ref w) (f (manager w)).

(** Running a method of the [Image] named by [r]. *)
Definition on_image {A : Type} (r : ref) (m : M Image.t A) : M World A :=
  fun w =>
    match heap w !! r with
    | Some img =>
        let '(res, img') := m img in
        (res, mk_World (<[r := img']> (heap w)) (next_ref w) (manager w))
    | None => (Raise DanglingRef, w)
    end.

(** A new [Image] object. *)
Definition alloc (img : Image.t) : M World ref :=
  fun w => (Ok (next_ref w), mk_World (<[next_ref w := img]> (heap w)) (S (next_ref w)) (manager w)).

Module Manager.
Import FilterManager.

(** *** FilterRegistry *)

Definition register_filter (key : string) (filter_obj : FilterProcessor) : M World unit :=
  modify (with_manager (fun self => with_registry (<[key := filter_obj]> (_registry self)) self)).

Definition get_filter (key : string) : M World (option FilterProcessor) :=
  gets (fun w => _registry (manager w) !! key).

(** *** HistoryTracker *)

Definition add_to_history (operation : pystr) : M World unit :=
  modify (with_manager (fun self => with_history (_history self ++ [operation]) self)).

Definition get_history : M World (list pystr) := gets (fun w => _history (manager w)).

Definition clear_history : M World unit := modify (with_manager (with_history [])).

Definition last_operation : M World (option pystr) :=
  gets (fun w => last (_history (manager w))).

(** *** FilterManager *)

Definition _register_default_filters (cv : OpenCV) : M World unit :=
  (run! register_filter "grayscale" (GrayscaleFilter cv) ;;
   run! register_filter "blur" (BlurFilter cv) ;;
   run! register_filter "edge" (EdgeDetectionFilter cv) ;;
   run! register_filter "brightness" (BrightnessAdjustment cv) ;;
   run! register_filter "contrast" (ContrastAdjustment cv) ;;
   run! register_filter "rotate" (RotationFilter cv) ;;
   run! register_filter "flip" FlipFilter ;;
   register_filter "resize" (ResizeFilter cv))%py.

(** [FilterManager()]: the world in which no [Image] exists yet. *)
Definition __init__ (cv : OpenCV) : World :=
  snd (_register_default_filters cv (mk_World ∅ 0%nat (mk ∅ [] None [] []))).

Definition current_image : M World (option ref) := gets (fun w => _current_image (manager w)).

(** The [current_image] setter. *)
Definition set_current_image (image : ref) : M World unit :=
  (run! modify (with_manager (with_current (Some image))) ;;
   run! modify (with_manager (with_undo [])) ;;
   modify (with_manager (with_redo [])))%py.

Definition undo_append (a : ndarray) : M World unit :=
  modify (with_manager (fun self => with_undo (_undo_stack self ++ [a]) self)).

Definition redo_append (a : ndarray) : M World unit :=
  modify (with_manager (fun self => with_redo (_redo_stack self ++ [a]) self)).

(** [self._undo_stack.pop()]. *)
Definition undo_pop : M World ndarray :=
  fun w =>
    match list_pop (_undo_stack (manager w)) with
    | Some (a, rest) => (Ok a, with_manager (with_undo rest) w)
    | None => (Raise IndexError, w)
    end.

Definition redo_pop : M World ndarray :=
  fun w =>
    match list_pop (_redo_stack (manager w)) with
    | Some (a, rest) => (Ok a, with_manager (with_redo rest) w)
    | None => (Raise IndexError, w)
    end.

(** The text appended to the log by a successful [apply_filter]. *)
Definition operation_text (filter_obj : FilterProcessor) (kw : kwargs) : pystr :=
  match kw with
  | [] => PyStr ("Applied " ++ name filter_obj)
  | _ :: _ => PyStrRepr ("Applied " ++ name filter_obj ++ " with params: ") kw
  end.

(** The [except] block of [apply_filter]. *)
Definition apply_filter_except (e : exn) : M World bool :=
  (get! stack <~ gets (fun w => _undo_stack (manager w)) ;;
   run! match stack with
        | [] => ret tt
        | _ :: _ => (run! undo_pop ;; ret tt)
        end ;;
   ret false)%py.

Definition apply_filter (filter_key : string) (kw : kwargs) : M World bool :=
  (get! cur <~ current_image ;;
   match cur with
   | None => ret false
   | Some image =>
       get! found <~ get_filter filter_key ;;
       match found with
       | None => ret false
       | Some filter_obj =>
           try_except
             (get! snapshot <~ on_image image Image.current_image ;;
              run! undo_append snapshot ;;
              run! modify (with_manager (with_redo [])) ;;
              get! current_img <~ on_image image Image.current_image ;;
              get! processed_img <~ call (apply filter_obj current_img kw) ;;
              run! on_image image (Image.set_current_image processed_img) ;;
              run! add_to_history (operation_text filter_obj kw) ;;
              ret true)
             apply_filter_except
       end
   end)%py.

Definition undo : M World bool :=
  (get! stack <~ gets (fun w => _undo_stack (manager w)) ;;
   get! cur <~ current_image ;;
   match stack, cur with
   | [], _ => ret false
   | _, None => ret false
   | _ :: _, Some image =>
       get! shown <~ on_image image Image.current_image ;;
       run! redo_append shown ;;
       get! previous_state <~ undo_pop ;;
       run! on_image image (Image.set_current_image previous_state) ;;
       ret true
   end)%py.

Definition redo : M World bool :=
  (get! stack <~ gets (fun w => _redo_stack (manager w)) ;;
   get! cur <~ current_image ;;
   match stack, cur with
   | [], _ => ret false
   | _, None => ret false
   | _ :: _, Some image =>
       get! shown <~ on_image image Image.current_image ;;
       run! undo_append shown ;;
       get! redo_state <~ redo_pop ;;
       run! on_image image (Image.set_current_image redo_state) ;;
       ret true
   end)%py.

Definition can_undo : M World bool :=
  gets (fun w => match _undo_stack (manager w) with [] => false | _ :: _ => true end).

Definition can_redo : M World bool :=
  gets (fun w => match _redo_stack (manager w) with [] => false | _ :: _ => true end).

End Manager.

(** ** gui/main_window.py: the state behind the widgets *)

Module App.

(** The attributes of [ImageEditorApp] that hold editing state.  The
    manager [_filter_manager] is [manager (world self)]; widgets, the zoom
    level and the canvas are display state and are left out. *)
Record t : Type := mk {
  world : World;
  _image : option ref;
  _original_for_sliders : option ndarray
}.

Definition on_world {A : Type} (m : M World A) : M t A :=
  fun self =>
    let '(res, w) := m (world self) in
    (res, mk w (_image self) (_original_for_sliders self)).

Definition set_image (r : option ref) : M t unit :=
  modify (fun self => mk (world self) r (_original_for_sliders self)).

Definition set_original_for_sliders (a : option ndarray) : M t unit :=
  modify (fun self => mk (world self) (_image self) a).

(** [ImageEditorApp(root)]. *)
Definition __init__ (cv : OpenCV) : t := mk (Manager.__init__ cv) None None.

(** [_open_image], given the path the file dialog returned (empty when the
    dialog was cancelled). *)
Definition _open_image (cv : OpenCV) (filepath : string) : M t unit :=
  if String.eqb filepath "" then ret tt
  else
    try_except
      (get! img <~ call (Image.__init__ cv filepath) ;;
       get! r <~ on_world (alloc img) ;;
       run! set_image (Some r) ;;
       run! on_world (Manager.set_current_image r) ;;
       get! shown <~ on_world (on_image r Image.current_image) ;;
       set_original_for_sliders (Some (np_copy shown)))%py
      (fun e => ret tt).

Definition _apply_filter_permanent (filter_key : string) (kw : kwargs) : M t unit :=
  (get! image <~ gets _image ;;
   match image with
   | None => ret tt
   | Some r =>
       get! success <~ on_world (Manager.apply_filter filter_key kw) ;;
       if success : bool then
         get! shown <~ on_world (on_image r Image.current_image) ;;
         set_original_for_sliders (Some (np_copy shown))
       else ret tt
   end)%py.

(** The [try] block shared by the four slider handlers: look the filter up,
    apply it to the stored baseline, and put the result on display.  Any
    exception is printed and dropped. *)
Definition preview (filter_key : string) (kw : kwargs) (r : ref) (baseline : ndarray) : M t unit :=
  try_except
    (get! found <~ on_world (Manager.get_filter filter_key) ;;
     match found with
     | None => raise AttributeError
     | Some filter_obj =>
         get! filtered <~ call (apply filter_obj baseline kw) ;;
         on_world (on_image r (Image.set_current_image filtered))
     end)%py
    (fun e => ret tt).

(** The guard the slider handlers start with. *)
Definition slider_target (self : t) : option (ref * ndarray) :=
  match _image self, _original_for_sliders self with
  | Some r, Some baseline => Some (r, baseline)
  | _, _ => None
  end.

(** The handlers take the slider position [float(value)]. *)
Definition _on_blur_change (value : float) : M t unit :=
  (get! target <~ gets slider_target ;;
   match target with
   | None => ret tt
   | Some (r, baseline) =>
       get! intensity <~ call (py_int_of_float value) ;;
       let intensity := if intensity mod 2 =? 0 then intensity + 1 else intensity in
       preview "blur" [("intensity", PInt intensity)] r baseline
   end)%py.

Definition _on_brightness_change (value : float) : M t unit :=
  (get! target <~ gets slider_target ;;
   match target with
   | None => ret tt
   | Some (r, baseline) =>
       get! brightness_value <~ call (py_int_of_float value) ;;
       preview "brightness" [("value", PInt brightness_value)] r baseline
   end)%py.

Definition _on_contrast_change (value : float) : M t unit :=
  (get! target <~ gets slider_target ;;
   match target with
   | None => ret tt
   | Some (r, baseline) => preview "contrast" [("value", PFloat value)] r baseline
   end)%py.

Definition _on_resize_change (value : float) : M t unit :=
  (get! target <~ gets slider_target ;;
   match target with
   | None => ret tt
   | Some (r, baseline) =>
       get! scale_percent <~ call (py_int_of_float value) ;;
       get! percent <~ call (py_float_of_Z scale_percent) ;;
       let scale := PrimFloat.div percent 100%float in
       preview "resize" [("scale", PFloat scale)] r baseline
   end)%py.

(** [_commit_slider_changes].  The four [slider.set(default)] calls that
    follow the assignment are widget operations; a handler that Tk calls
    because of them is a slider movement of its own. *)
Definition _commit_slider_changes : M t unit :=
  (get! image <~ gets _image ;;
   match image with
   | None => ret tt
   | Some r =>
       get! shown <~ on_world (on_image r Image.current_image) ;;
       set_original_for_sliders (Some (np_copy shown))
   end)%py.

Definition _undo : M t unit := (run! on_world Manager.undo ;; ret tt)%py.

Definition _redo : M t unit := (run! on_world Manager.redo ;; ret tt)%py.

Definition _reset_to_original : M t unit :=
  (get! image <~ gets _image ;;
   match image with
   | None => ret tt
   | Some r =>
       run! on_world (on_image r Image.reset_to_original) ;;
       get! shown <~ on_world (on_image r Image.current_image) ;;
       set_original_for_sliders (Some (np_copy shown))
   end)%py.

End App.

(** ** Observations and runs *)

(** The document's current buffer, read through the manager. *)
Definition document_buffer (w : World) : option ndarray :=
  match FilterManager._current_image (manager w) with
  | Some r =>
      match heap w !! r with
      | Some img => Image._current_image img
      | None => None
      end
  | None => None
  end.

(** The buffer on display, read through the window's own reference. *)
Definition shown (s : App.t) : option ndarray :=
  match App._image s with
  | Some r =>
      match heap (App.world s) !! r with
      | Some img => Image._current_image img
      | None => None
      end
  | None => None
  end.


(** A run of [apply_filter] calls that all return [True]. *)
Fixpoint apply_all (ops : list (string * kwargs)) (w : World) : option World :=
  match ops with
  | [] => Some w
  | (filter_key, kw) :: rest =>
      match Manager.apply_filter filter_key kw w with
      | (Ok true, w') => apply_all rest w'
      | _ => None
      end
  end.

(** [n] calls of [undo] in a row. *)
Definition undo_times (n : nat) (w : World) : World :=
  Nat.iter n (fun w => snd (Manager.undo w)) w.


(** One movement of one of the four sliders. *)
Inductive slider_move : Type :=
| MoveBlur (value : float)
| MoveBrightness (value : float)
| MoveContrast (value : float)
| MoveResize (value : float).

Definition on_move (m : slider_move) : M App.t unit :=
  match m with
  | MoveBlur v => App._on_blur_change v
  | MoveBrightness v => App._on_brightness_change v
  | MoveContrast v => App._on_contrast_change v
  | MoveResize v => App._on_resize_change v
  end.

(** What a slider movement asks for once the handler's guard has passed: the
    filter key and the keyword arguments it hands to the filter, or the
    exception raised while converting the slider position. *)
Definition preview_request (m : slider_move) : pyresult (string * kwargs) :=
  match m with
  | MoveBlur v =>
      rbind (py_int_of_float v) (fun intensity =>
        Ok ("blur", [("intensity", PInt (if intensity mod 2 =? 0 then intensity + 1 else intensity))]))
  | MoveBrightness v =>
      rbind (py_int_of_float v) (fun brightness_value =>
        Ok ("brightness", [("value", PInt brightness_value)]))
  | MoveContrast v => Ok ("contrast", [("value", PFloat v)])
  | MoveResize v =>
      rbind (py_int_of_float v) (fun scale_percent =>
      rbind (py_float_of_Z scale_percent) (fun percent =>
        Ok ("resize", [("scale", PFloat (PrimFloat.div percent 100%float))])))
  end.



(** ** The rest of the manager's interface *)

(** [len(manager)]. *)
Definition FilterManager_len (w : World) : nat :=
  size (FilterManager._registry (manager w)).

(** [filter_key in manager]. *)
Definition FilterManager_contains (filter_key : string) (w : World) : bool :=
  match FilterManager._registry (manager w) !! filter_key with
  | Some _ => true
  | None => false
  end.

(** [lo <= v <= hi] for integer bounds: a float is compared by value, a
    string or [None] cannot be ordered against a number. *)
Definition between_ints (lo hi : Z) (v : pyval) : pyresult bool :=
  match v with
  | PInt z => Ok ((lo <=? z) && (z <=? hi))
  | PFloat f =>
      rbind (py_float_of_Z lo) (fun l =>
      rbind (py_float_of_Z hi) (fun h =>
        Ok (PrimFloat.leb l f && PrimFloat.leb f h)))
  | _ => Raise TypeError
  end.

(** [0.5 <= v <= 3.0]: an [int] lies above one half exactly when it is at
    least 1. *)
Definition contrast_in_range (v : pyval) : pyresult bool :=
  match v with
  | PInt z => Ok ((1 <=? z) && (z <=? 3))
  | PFloat f => Ok (PrimFloat.leb 0.5%float f && PrimFloat.leb f 3%float)
  | _ => Raise TypeError
  end.

(** [FilterManager.validate_filter_params(filter_type, **kwargs)]. *)
Definition validate_filter_params (filter_type : string) (kw : kwargs) : pyresult bool :=
  if kw_has kw "filter_type" then Raise TypeError
  else if String.eqb filter_type "blur" then between_ints 1 50 (kw_get kw "intensity" (PInt 5))
  else if String.eqb filter_type "brightness" then between_ints (-100) 100 (kw_get kw "value" (PInt 0))
  else if String.eqb filter_type "contrast" then contrast_in_range (kw_get kw "value" (PFloat 1%float))
  else Ok true.

(** ** Sessions of the window *)

(** What the user can do to the editing state. *)
Inductive event : Type :=
| EvOpen (filepath : string)
| EvApply (filter_key : string) (kw : kwargs)
| EvMove (m : slider_move)
| EvCommit
| EvUndo
| EvRedo
| EvReset.

Definition handle (cv : OpenCV) (e : event) : M App.t unit :=
  match e with
  | EvOpen filepath => App._open_image cv filepath
  | EvApply filter_key kw => App._apply_filter_permanent filter_key kw
  | EvMove m => on_move m
  | EvCommit => App._commit_slider_changes
  | EvUndo => App._undo
  | EvRedo => App._redo
  | EvReset => App._reset_to_original
  end.

(** The state after a list of events; a handler that raises leaves the state
    it reached, and the next event runs from there. *)
Definition run_events (cv : OpenCV) (events : list event) (s : App.t) : App.t :=
  fold_left (fun s e => snd (handle cv e s)) events s.

(** ** Images as arrays *)


(** Every sample is an 8-bit value. *)
Definition samples_8bit (a : ndarray) : Prop :=
  Forall (fun p => 0 <= p <= 255) (data a).

(** The setter called with each array in turn. *)
Definition set_all (arrays : list ndarray) (img : Image.t) : Image.t :=
  fold_left (fun img a => snd (Image.set_current_image a img)) arrays img.

(** ** What a new manager holds, and what the window keeps *)

(** The keys [FilterManager()] registers. *)
Definition default_keys : list string :=
  ["grayscale"; "blur"; "edge"; "brightness"; "contrast"; "rotate"; "flip"; "resize"].

(** The eight filter objects of a new manager. *)
Definition default_filters (cv : OpenCV) : list FilterProcessor :=
  [GrayscaleFilter cv; BlurFilter cv; EdgeDetectionFilter cv; BrightnessAdjustment cv;
   ContrastAdjustment cv; RotationFilter cv; FlipFilter; ResizeFilter cv].

(** An [Image] object with both buffers in place. *)
Definition image_ok (img : Image.t) : Prop :=
  is_Some (Image._original_image img) /\ is_Some (Image._current_image img).

(** The reference names such an object. *)
Definition ok_at (w : World) (r : ref) : Prop :=
  exists img, heap w !! r = Some img /\ image_ok img.

(** What holds of the window's state between events: the window and the
    manager name the same [Image] object; when there is one it is allocated
    with both buffers and a baseline is stored; when there is none there is
    no baseline and no history. *)
Definition app_ok (s : App.t) : Prop :=
  App._image s = FilterManager._current_image (manager (App.world s)) /\
  match App._image s with
  | Some r => ok_at (App.world s) r /\ is_Some (App._original_for_sliders s)
  | None =>
      App._original_for_sliders s = None /\
      FilterManager._undo_stack (manager (App.world s)) = [] /\
      FilterManager._redo_stack (manager (App.world s)) = [] /\
      FilterManager._history (manager (App.world s)) = []
  end.

(** ** A sample session *)

Module Demo.

(** A 1x2 BGR image. *)
Definition photo : ndarray := mk_ndarray [1%nat; 2%nat; 3%nat] [10; 20; 30; 40; 50; 60].

(** A stand-in for the library in the examples: [photo.png] decodes to
    [photo], and the routines left abstract raise.  The examples only run
    brightness on integers, the dedicated rotations and failing resizes,
    none of which reaches those routines. *)
Definition cv : OpenCV :=
  {| imread := fun path => if String.eqb path "photo.png" then Some photo else None;
     cvtColor := fun _ _ => Raise cv2_error;
     GaussianBlur := fun _ _ => Raise cv2_error;
     Canny := fun _ _ _ => Raise cv2_error;
     warp_rotate := fun _ _ _ _ => Raise cv2_error;
     resize_linear := fun _ _ _ => Raise cv2_error;
     add_float := fun _ _ => Raise cv2_error;
     scale_float32 := fun _ _ => Raise cv2_error |}.

(** [photo] with 10 added to every sample. *)
Definition brighter : ndarray := mk_ndarray [1%nat; 2%nat; 3%nat] [20; 30; 40; 50; 60; 70].

(** [photo] turned a quarter clockwise: 2x1. *)
Definition turned : ndarray := mk_ndarray [2%nat; 1%nat; 3%nat] [10; 20; 30; 40; 50; 60].

(** The window after opening [photo.png]. *)
Definition opened : App.t := snd (App._open_image cv "photo.png" (App.__init__ cv)).

(** ... after the brightness button with value 10. *)
Definition edited : App.t :=
  snd (App._apply_filter_permanent "brightness" [("value", PInt 10)] opened).

(** ... after one undo. *)
Definition undone : App.t := snd (App._undo edited).

(** ... after opening [photo.png] once more on top of the edit. *)
Definition reopened : App.t := snd (App._open_image cv "photo.png" edited).

(** After opening: the brightness slider dragged to 10, then the commit. *)
Definition dragged : App.t := snd (App._on_brightness_change 10%float opened).



(** Two edits in a row on the opened photo, and the world after them. *)
Definition two_edits : list (string * kwargs) :=
  [("brightness", [("value", PInt 10)]); ("rotate", [("angle", PInt 90)])].

Definition twice : World :=
  default (App.world opened) (apply_all two_edits (App.world opened)).

(** The [Image] object right after [Image("photo.png")]. *)
Definition loaded_image : Image.t :=
  Image.mk "photo.png" (Some photo) (Some photo) 2 1.

(** An array with no pixel. *)
Definition blank : ndarray := mk_ndarray [0%nat; 0%nat; 3%nat] [].

(** [brighter] with 10 more added to every sample. *)
Definition brightest : ndarray := mk_ndarray [1%nat; 2%nat; 3%nat] [30; 40; 50; 60; 70; 80].

(** The [Image] object after the brightness edit. *)
Definition edited_image : Image.t :=
  Image.mk "photo.png" (Some photo) (Some brighter) 2 1.

End Demo.

(** * Properties *)

(** ** Stepping through the object store *)

Ltac unfold_setters :=
  unfold with_manager, FilterManager.with_history, FilterManager.with_redo,
    FilterManager.with_undo, FilterManager.with_current, FilterManager.with_registry in *;
  simpl in *.

Lemma list_pop_app {A : Type} (l : list A) (x : A) : list_pop (l ++ [x]) = Some (x, l).
Proof.
  unfold list_pop. rewrite rev_app_distr. simpl. now rewrite rev_involutive.
Qed.

Lemma world_eta (w : World) : mk_World (heap w) (next_ref w) (manager w) = w.
Proof. now destruct w. Qed.

(** Reading the buffer of an allocated image changes nothing. *)
Lemma on_image_get (w : World) (r : ref) (img : Image.t) :
  heap w !! r = Some img ->
  on_image r Image.current_image w = (Image.copy_of (Image._current_image img), w).
Proof.
  intros Hr. unfold on_image. rewrite Hr. cbn.
  rewrite insert_id by exact Hr. now rewrite world_eta.
Qed.

(** The setter replaces the buffer first and only then reads the shape: when
    the shape has fewer than two axes the buffer stays replaced. *)
Lemma on_image_set (w : World) (r : ref) (img : Image.t) (a : ndarray) :
  heap w !! r = Some img ->
  on_image r (Image.set_current_image a) w =
  match shape2 a with
  | Ok hw =>
      (Ok tt, mk_World (<[r := Image.with_dims hw (Image.with_current (Some a) img)]> (heap w))
                (next_ref w) (manager w))
  | Raise e =>
      (Raise e, mk_World (<[r := Image.with_current (Some a) img]> (heap w))
                  (next_ref w) (manager w))
  end.
Proof.
  intros Hr. unfold on_image. rewrite Hr.
  unfold Image.set_current_image, bind, modify, call. cbn.
  destruct (shape2 a); reflexivity.
Qed.

Lemma on_image_dangling {A : Type} (w : World) (r : ref) (m : M Image.t A) :
  heap w !! r = None -> on_image r m w = (Raise DanglingRef, w).
Proof. intros Hr. unfold on_image. now rewrite Hr. Qed.

(** ** apply_filter, case by case *)

(** The [except] block pops the last snapshot, whoever pushed it. *)
Lemma apply_filter_except_pops (e : exn) (w : World) (u : list ndarray) (b : ndarray) :
  FilterManager._undo_stack (manager w) = (u ++ [b])%list ->
  Manager.apply_filter_except e w = (Ok false, with_manager (FilterManager.with_undo u) w).
Proof.
  intros Hu. unfold Manager.apply_filter_except, bind, gets. rewrite Hu.
  destruct (u ++ [b])%list eqn:Hs.
  { now destruct u. }
  unfold Manager.undo_pop. rewrite Hu, <- Hs, list_pop_app. reflexivity.
Qed.

Lemma apply_filter_except_empty (e : exn) (w : World) :
  FilterManager._undo_stack (manager w) = [] ->
  Manager.apply_filter_except e w = (Ok false, w).
Proof.
  intros Hu. unfold Manager.apply_filter_except, bind, gets. now rewrite Hu.
Qed.

Lemma apply_filter_no_image (w : World) (filter_key : string) (kw : kwargs) :
  FilterManager._current_image (manager w) = None ->
  Manager.apply_filter filter_key kw w = (Ok false, w).
Proof.
  intros Hc. unfold Manager.apply_filter, bind, Manager.current_image, gets.
  now rewrite Hc.
Qed.

Lemma apply_filter_unknown (w : World) (filter_key : string) (kw : kwargs) :
  FilterManager._registry (manager w) !! filter_key = None ->
  Manager.apply_filter filter_key kw w = (Ok false, w).
Proof.
  intros Hk. unfold Manager.apply_filter, bind, Manager.current_image, Manager.get_filter, gets.
  destruct (FilterManager._current_image (manager w)); [|reflexivity].
  now rewrite Hk.
Qed.

(** With an image loaded and the filter found, the outcome is decided by the
    filter's result and by the shape of what it returns. *)
Lemma apply_filter_loaded (w : World) (filter_key : string) (kw : kwargs)
    (r : ref) (img : Image.t) (b : ndarray) (f : FilterProcessor) :
  FilterManager._current_image (manager w) = Some r ->
  heap w !! r = Some img ->
  Image._current_image img = Some b ->
  FilterManager._registry (manager w) !! filter_key = Some f ->
  Manager.apply_filter filter_key kw w =
  match apply f b kw with
  | Raise _ => (Ok false, with_manager (FilterManager.with_redo []) w)
  | Ok p =>
      match shape2 p with
      | Ok hw =>
          (Ok true,
           mk_World (<[r := Image.with_dims hw (Image.with_current (Some p) img)]> (heap w))
             (next_ref w)
             (FilterManager.mk (FilterManager._registry (manager w))
                (FilterManager._history (manager w) ++ [Manager.operation_text f kw])
                (Some r)
                (FilterManager._undo_stack (manager w) ++ [b]) []))
      | Raise _ =>
          (Ok false,
           mk_World (<[r := Image.with_current (Some p) img]> (heap w)) (next_ref w)
             (FilterManager.with_redo [] (manager w)))
      end
  end.
Proof.
  intros Hc Hr Hb Hk.
  unfold Manager.apply_filter, bind, Manager.current_image, Manager.get_filter, gets.
  rewrite Hc, Hk. unfold try_except.
  rewrite (on_image_get w r img Hr), Hb. cbn [Image.copy_of]. unfold np_copy.
  unfold Manager.undo_append, modify.
  rewrite (on_image_get _ r img) by exact Hr. rewrite Hb. cbn [Image.copy_of].
  unfold np_copy, call.
  destruct (apply f b kw) as [p|e].
  - rewrite (on_image_set _ r img p) by exact Hr.
    destruct (shape2 p) as [hw|e].
    + unfold Manager.add_to_history, modify, ret. unfold_setters. now rewrite Hc.
    + now rewrite (apply_filter_except_pops e _ (FilterManager._undo_stack (manager w)) b).
  - rewrite (apply_filter_except_pops e _ (FilterManager._undo_stack (manager w)) b) by reflexivity.
    destruct w. reflexivity.
Qed.

Lemma list_pop_cons {A : Type} (x : A) (l : list A) :
  exists y r, list_pop (x :: l) = Some (y, r).
Proof.
  unfold list_pop. destruct (rev (x :: l)) as [|y r] eqn:Hrev.
  - apply (f_equal (@length A)) in Hrev. rewrite length_rev in Hrev. discriminate.
  - eauto.
Qed.

(** The [except] block always ends in [return False]. *)
Lemma apply_filter_except_false (e : exn) (w : World) :
  fst (Manager.apply_filter_except e w) = Ok false.
Proof.
  unfold Manager.apply_filter_except, bind, gets.
  destruct (FilterManager._undo_stack (manager w)) as [|x l] eqn:Hu; [reflexivity|].
  unfold Manager.undo_pop. rewrite Hu.
  destruct (list_pop_cons x l) as (y & r & Hp). now rewrite Hp.
Qed.

(** What a call that returned [True] has done. *)
Lemma apply_filter_true (w w' : World) (filter_key : string) (kw : kwargs) :
  Manager.apply_filter filter_key kw w = (Ok true, w') ->
  exists r img b f p hw,
    FilterManager._current_image (manager w) = Some r /\
    heap w !! r = Some img /\
    Image._current_image img = Some b /\
    FilterManager._registry (manager w) !! filter_key = Some f /\
    apply f b kw = Ok p /\
    shape2 p = Ok hw /\
    w' = mk_World (<[r := Image.with_dims hw (Image.with_current (Some p) img)]> (heap w))
           (next_ref w)
           (FilterManager.mk (FilterManager._registry (manager w))
              (FilterManager._history (manager w) ++ [Manager.operation_text f kw])
              (Some r)
              (FilterManager._undo_stack (manager w) ++ [b]) []).
Proof.
  intros Happ.
  destruct (FilterManager._current_image (manager w)) as [r|] eqn:Hc.
  2: { rewrite apply_filter_no_image in Happ by exact Hc. discriminate. }
  destruct (FilterManager._registry (manager w) !! filter_key) as [f|] eqn:Hk.
  2: { rewrite apply_filter_unknown in Happ by exact Hk. discriminate. }
  destruct (heap w !! r) as [img|] eqn:Hr.
  2: { unfold Manager.apply_filter, bind, Manager.current_image, Manager.get_filter, gets in Happ.
       rewrite Hc, Hk in Happ. unfold try_except in Happ.
       rewrite on_image_dangling in Happ by exact Hr.
       pose proof (apply_filter_except_false DanglingRef w) as Hf.
       rewrite Happ in Hf. discriminate. }
  destruct (Image._current_image img) as [b|] eqn:Hb.
  2: { unfold Manager.apply_filter, bind, Manager.current_image, Manager.get_filter, gets in Happ.
       rewrite Hc, Hk in Happ. unfold try_except in Happ.
       rewrite (on_image_get w r img Hr), Hb in Happ. cbn [Image.copy_of] in Happ.
       pose proof (apply_filter_except_false AttributeError w) as Hf.
       rewrite Happ in Hf. discriminate. }
  rewrite (apply_filter_loaded w filter_key kw r img b f Hc Hr Hb Hk) in Happ.
  destruct (apply f b kw) as [p|e] eqn:Hf; [|discriminate].
  destruct (shape2 p) as [hw|e] eqn:Hp; [|discriminate].
  exists r, img, b, f, p, hw. repeat split; try assumption; try reflexivity.
  now inversion Happ.
Qed.

(** ** undo and redo, case by case *)

Lemma undo_loaded (w : World) (r : ref) (img : Image.t) (b x : ndarray) (u : list ndarray) :
  FilterManager._current_image (manager w) = Some r ->
  heap w !! r = Some img ->
  Image._current_image img = Some b ->
  FilterManager._undo_stack (manager w) = (u ++ [x])%list ->
  snd (Manager.undo w) =
  mk_World
    (<[r := match shape2 x with
            | Ok hw => Image.with_dims hw (Image.with_current (Some x) img)
            | Raise _ => Image.with_current (Some x) img
            end]> (heap w))
    (next_ref w)
    (FilterManager.mk (FilterManager._registry (manager w)) (FilterManager._history (manager w))
       (Some r) u (FilterManager._redo_stack (manager w) ++ [b]))
  /\ (forall hw, shape2 x = Ok hw -> fst (Manager.undo w) = Ok true).
Proof.
  intros Hc Hr Hb Hu.
  assert (Hs : exists y l, (u ++ [x])%list = y :: l) by (destruct u; simpl; eauto).
  destruct Hs as (y & l & Hs).
  unfold Manager.undo, bind, Manager.current_image, gets.
  rewrite Hu, Hs, Hc. rewrite (on_image_get w r img Hr), Hb. cbn [Image.copy_of]. unfold np_copy.
  unfold Manager.redo_append, modify, Manager.undo_pop. unfold_setters.
  rewrite Hu, list_pop_app.
  rewrite (on_image_set _ r img x) by exact Hr.
  destruct (shape2 x) as [hw|e]; simpl; rewrite Hc; split; intros; try reflexivity; discriminate.
Qed.

Lemma redo_empty (w : World) :
  FilterManager._redo_stack (manager w) = [] -> Manager.redo w = (Ok false, w).
Proof.
  intros Hr. unfold Manager.redo, bind, Manager.current_image, gets. now rewrite Hr.
Qed.

Lemma undo_empty (w : World) :
  FilterManager._undo_stack (manager w) = [] -> Manager.undo w = (Ok false, w).
Proof.
  intros Hr. unfold Manager.undo, bind, Manager.current_image, gets. now rewrite Hr.
Qed.

Lemma document_buffer_loaded (w : World) (b : ndarray) :
  document_buffer w = Some b ->
  exists r img,
    FilterManager._current_image (manager w) = Some r /\
    heap w !! r = Some img /\
    Image._current_image img = Some b.
Proof.
  unfold document_buffer. intros H.
  destruct (FilterManager._current_image (manager w)) as [r|]; [|discriminate].
  destruct (heap w !! r) as [img|] eqn:Hr; [|discriminate].
  eauto.
Qed.

(** A filter that raises leaves the undo stack, the log and the buffer as
    they were, and the redo stack empty. *)
Lemma apply_filter_raise_clears_redo (w : World) (filter_key : string) (kw : kwargs)
    (r : ref) (img : Image.t) (b : ndarray) (f : FilterProcessor) (e : exn) :
  FilterManager._current_image (manager w) = Some r ->
  heap w !! r = Some img ->
  Image._current_image img = Some b ->
  FilterManager._registry (manager w) !! filter_key = Some f ->
  apply f b kw = Raise e ->
  Manager.apply_filter filter_key kw w = (Ok false, with_manager (FilterManager.with_redo []) w).
Proof.
  intros Hc Hr Hb Hk Hf.
  rewrite (apply_filter_loaded w filter_key kw r img b f Hc Hr Hb Hk). now rewrite Hf.
Qed.

(** A call that returns [True] has pushed the old buffer, emptied the redo
    stack, logged one line and put the filter's result in the document. *)
Lemma apply_filter_success_effect (w w' : World) (filter_key : string) (kw : kwargs) :
  Manager.apply_filter filter_key kw w = (Ok true, w') ->
  exists b p line,
    document_buffer w = Some b /\
    document_buffer w' = Some p /\
    FilterManager._undo_stack (manager w') = (FilterManager._undo_stack (manager w) ++ [b])%list /\
    FilterManager._redo_stack (manager w') = [] /\
    FilterManager._history (manager w') = (FilterManager._history (manager w) ++ [line])%list.
Proof.
  intros Happ.
  apply apply_filter_true in Happ
    as (r & img & b & f & p & hw & Hc & Hr & Hb & Hk & Hf & Hp & ->).
  exists b, p, (Manager.operation_text f kw). unfold document_buffer. simpl.
  rewrite Hc, Hr, Hb, lookup_insert_eq. simpl. repeat split; reflexivity.
Qed.

(** ** The claims *)

(** C1 (code at the failing input).  In the sample session, after one edit
    and one undo the redo stack holds the edited buffer.  A resize by scale
    0.0 then fails inside the library call: [apply_filter] returns [False]
    with the undo stack, the log and the buffer as before, but the redo
    stack has been emptied and is not restored. *)
Theorem failed_apply_empties_redo_stack :
  let w := App.world Demo.undone in
  let out := Manager.apply_filter "resize" [("scale", PFloat 0%float)] w in
  fst out = Ok false /\
  FilterManager._redo_stack (manager w) = [Demo.brighter] /\
  FilterManager._redo_stack (manager (snd out)) = [] /\
  FilterManager._undo_stack (manager (snd out)) = FilterManager._undo_stack (manager w) /\
  FilterManager._history (manager (snd out)) = FilterManager._history (manager w) /\
  document_buffer (snd out) = document_buffer w.
Proof. vm_compute. repeat split. Qed.

(** C3 (as amended).  Assigning [FilterManager.current_image] records the
    new image and empties the undo and redo stacks; the operation log is
    left as it was. *)
Theorem set_current_image_clears_stacks_only (w : World) (image : ref) :
  let out := Manager.set_current_image image w in
  fst out = Ok tt /\
  FilterManager._current_image (manager (snd out)) = Some image /\
  FilterManager._undo_stack (manager (snd out)) = [] /\
  FilterManager._redo_stack (manager (snd out)) = [] /\
  FilterManager._history (manager (snd out)) = FilterManager._history (manager w).
Proof. cbv. repeat split. Qed.

(** C3 (counterexample).  In the sample session, after one brightness edit
    the log has one line; assigning [current_image] again leaves that line
    in the log, so the three structures are not all empty afterwards. *)
Lemma set_current_image_keeps_log :
  let w := snd (Manager.set_current_image 0%nat (App.world Demo.edited)) in
  ~ (FilterManager._undo_stack (manager w) = [] /\
     FilterManager._redo_stack (manager w) = [] /\
     FilterManager._history (manager w) = []).
Proof. vm_compute. intros (_ & _ & H). discriminate H. Qed.

(** C4.  After any run of [apply_filter] calls that all returned [True], as
    many [undo] calls bring the document's buffer back to the one it had
    before the first call (and the undo stack back to what it was). *)
Theorem undo_round_trip (ops : list (string * kwargs)) (w w' : World) :
  apply_all ops w = Some w' ->
  document_buffer (undo_times (length ops) w') = document_buffer w /\
  FilterManager._undo_stack (manager (undo_times (length ops) w')) =
    FilterManager._undo_stack (manager w).
Proof.
  revert w. induction ops as [|[filter_key kw] rest IH]; intros w Hall.
  - simpl in Hall. injection Hall as <-. split; reflexivity.
  - simpl in Hall.
    destruct (Manager.apply_filter filter_key kw w) as [[[|]|e] w1] eqn:Happ; try discriminate.
    apply apply_filter_true in Happ
      as (r & img & b & f & p & hw & Hc & Hr & Hb & Hk & Hf & Hp & ->).
    destruct (IH _ Hall) as [IHb IHu]. clear IH Hall.
    change (undo_times (length ((filter_key, kw) :: rest)) w')
      with (snd (Manager.undo (undo_times (length rest) w'))).
    set (w2 := undo_times (length rest) w') in *.
    assert (Hw2 : document_buffer w2 = Some p).
    { rewrite IHb. unfold document_buffer. simpl. now rewrite lookup_insert_eq. }
    apply document_buffer_loaded in Hw2 as (r2 & img2 & Hc2 & Hr2 & Hb2).
    simpl in IHu.
    destruct (undo_loaded w2 r2 img2 p b _ Hc2 Hr2 Hb2 IHu) as [Hundo _].
    rewrite Hundo. unfold document_buffer. simpl.
    rewrite lookup_insert_eq, Hc, Hr, Hb.
    split; [|reflexivity]. now destruct (shape2 b).
Qed.

(** C5.  A call of [apply_filter] that returned [True] leaves the redo stack
    empty, so a [redo] issued right after it returns [False] and changes
    nothing. *)
Theorem redo_after_apply_is_noop (w w' : World) (filter_key : string) (kw : kwargs) :
  Manager.apply_filter filter_key kw w = (Ok true, w') ->
  FilterManager._redo_stack (manager w') = [] /\
  Manager.redo w' = (Ok false, w').
Proof.
  intros Happ.
  apply apply_filter_true in Happ
    as (r & img & b & f & p & hw & _ & _ & _ & _ & _ & _ & ->).
  split; [reflexivity|]. now apply redo_empty.
Qed.

(** C6.  Whatever the registry holds, [apply_filter] with a key that is not
    in it returns [False] and changes nothing: undo stack, redo stack, log
    and buffer are as before. *)
Theorem apply_filter_unknown_key (w : World) (filter_key : string) (kw : kwargs) :
  FilterManager._registry (manager w) !! filter_key = None ->
  let out := Manager.apply_filter filter_key kw w in
  fst out = Ok false /\
  snd out = w /\
  length (FilterManager._undo_stack (manager (snd out))) =
    length (FilterManager._undo_stack (manager w)) /\
  FilterManager._redo_stack (manager (snd out)) = FilterManager._redo_stack (manager w) /\
  FilterManager._history (manager (snd out)) = FilterManager._history (manager w) /\
  document_buffer (snd out) = document_buffer w.
Proof.
  intros Hk. cbv zeta. rewrite (apply_filter_unknown w filter_key kw Hk). simpl.
  repeat split; reflexivity.
Qed.

(** C10.  With no image loaded, [apply_filter] returns [False] for every key
    and every parameter bag, before touching anything: the undo stack, the
    redo stack and the log are as before. *)
Theorem apply_filter_without_image (w : World) (filter_key : string) (kw : kwargs) :
  FilterManager._current_image (manager w) = None ->
  let out := Manager.apply_filter filter_key kw w in
  fst out = Ok false /\
  snd out = w /\
  FilterManager._undo_stack (manager (snd out)) = FilterManager._undo_stack (manager w) /\
  FilterManager._redo_stack (manager (snd out)) = FilterManager._redo_stack (manager w) /\
  FilterManager._history (manager (snd out)) = FilterManager._history (manager w).
Proof.
  intros Hc. cbv zeta. rewrite (apply_filter_no_image w filter_key kw Hc). simpl.
  repeat split; reflexivity.
Qed.

(** C7 (as amended).  Blur with intensity 4 is blur with intensity 5; for
    every even intensity [k >= 0] the kernel size is [k + 1]; and the kernel
    size is always odd and at least 1. *)
Theorem blur_kernel_size_odd (cv : OpenCV) (image : ndarray) (k : Z) :
  apply (BlurFilter cv) image [("intensity", PInt 4)] =
    apply (BlurFilter cv) image [("intensity", PInt 5)] /\
  (0 <= k -> Z.even k = true -> kernel_size k = k + 1) /\
  Z.odd (kernel_size k) = true /\
  1 <= kernel_size k.
Proof.
  split; [reflexivity|]. unfold kernel_size. rewrite Zmod_even.
  destruct (Z.even k) eqn:He; simpl.
  - split; [intros; lia|]. split; [|lia].
    destruct (Z.max_spec 1 (k + 1)) as [[_ ->]|[_ ->]]; [|reflexivity].
    rewrite Z.add_1_r, Z.odd_succ. exact He.
  - split; [intros; discriminate|]. split; [|lia].
    destruct (Z.max_spec 1 k) as [[_ ->]|[_ ->]]; [|reflexivity].
    rewrite <- Z.negb_even, He. reflexivity.
Qed.

(** C7 (counterexample).  The intensity -2 is even, and its kernel size is
    1, not -2 + 1. *)
Lemma kernel_size_of_negative_even :
  Z.even (-2) = true /\ kernel_size (-2) = 1 /\ kernel_size (-2) <> -2 + 1.
Proof. split; [reflexivity|]. split; [reflexivity|]. discriminate. Qed.



(** ** Slider previews *)

(** What a preview leaves alone: the manager (registry, log, both stacks),
    the window's image reference, the baseline, and every allocated image
    stays allocated. *)
Definition same_session (s s' : App.t) : Prop :=
  manager (App.world s') = manager (App.world s) /\
  App._image s' = App._image s /\
  App._original_for_sliders s' = App._original_for_sliders s /\
  forall r0, is_Some (heap (App.world s) !! r0) -> is_Some (heap (App.world s') !! r0).

Lemma same_session_refl (s : App.t) : same_session s s.
Proof. unfold same_session. auto. Qed.


Lemma on_image_heap {A : Type} (r : ref) (m : M Image.t A) (w : World) :
  manager (snd (on_image r m w)) = manager w /\
  forall r0, is_Some (heap w !! r0) -> is_Some (heap (snd (on_image r m w)) !! r0).
Proof.
  unfold on_image. destruct (heap w !! r) as [img|] eqn:Hr; [|auto].
  destruct (m img) as [res img']. simpl. split; [reflexivity|].
  intros r0 H0. destruct (decide (r = r0)) as [->|Hne].
  - rewrite lookup_insert_eq. eauto.
  - now rewrite lookup_insert_ne.
Qed.

Lemma preview_same_session (filter_key : string) (kw : kwargs) (r : ref)
    (baseline : ndarray) (s : App.t) :
  same_session s (snd (App.preview filter_key kw r baseline s)).
Proof.
  destruct s as [w image old].
  unfold App.preview, try_except, bind, App.on_world, Manager.get_filter, gets, call, raise, ret.
  simpl. destruct (FilterManager._registry (manager w) !! filter_key) as [f|];
    [|apply same_session_refl].
  destruct (apply f baseline kw) as [filtered|e]; [|apply same_session_refl].
  cbn [App.world App._image App._original_for_sliders].
  pose proof (on_image_heap r (Image.set_current_image filtered) w) as [Hm Hh].
  destruct (on_image r (Image.set_current_image filtered) w) as [[u|e] w'];
    simpl in *; unfold same_session; simpl; auto.
Qed.

Lemma on_move_same_session (m : slider_move) (s : App.t) :
  same_session s (snd (on_move m s)).
Proof.
  destruct m as [v|v|v|v]; simpl;
    unfold App._on_blur_change, App._on_brightness_change, App._on_contrast_change,
      App._on_resize_change, bind, gets, call, ret;
    destruct (App.slider_target s) as [[r baseline]|]; try apply same_session_refl;
    try apply preview_same_session;
    destruct (py_int_of_float v) as [z|e]; try apply same_session_refl;
    try apply preview_same_session.
  destruct (py_float_of_Z z) as [x|e]; [apply preview_same_session|apply same_session_refl].
Qed.




(** Each handler is its guard, the conversion of the slider position, and
    the shared [try] block. *)
Lemma on_move_unfold (m : slider_move) (s : App.t) :
  on_move m s =
  match App.slider_target s with
  | None => (Ok tt, s)
  | Some (r, baseline) =>
      match preview_request m with
      | Ok (filter_key, kw) => App.preview filter_key kw r baseline s
      | Raise e => (Raise e, s)
      end
  end.
Proof.
  destruct m as [v|v|v|v]; simpl;
    unfold App._on_blur_change, App._on_brightness_change, App._on_contrast_change,
      App._on_resize_change, bind, gets, call, ret;
    destruct (App.slider_target s) as [[r baseline]|]; try reflexivity;
    destruct (py_int_of_float v) as [z|e]; simpl; try reflexivity.
  destruct (py_float_of_Z z) as [x|e]; reflexivity.
Qed.

(** One slider movement whose preview goes through puts the filter's result
    on the baseline on display, whatever was displayed before. *)
Lemma on_move_shows (s : App.t) (r : ref) (baseline result : ndarray)
    (img : Image.t) (f : FilterProcessor) (m : slider_move) (filter_key : string) (kw : kwargs) :
  App.slider_target s = Some (r, baseline) ->
  heap (App.world s) !! r = Some img ->
  preview_request m = Ok (filter_key, kw) ->
  FilterManager._registry (manager (App.world s)) !! filter_key = Some f ->
  apply f baseline kw = Ok result ->
  shown (snd (on_move m s)) = Some result.
Proof.
  intros Ht Hr Hq Hk Hf. rewrite on_move_unfold, Ht, Hq.
  destruct s as [w image old]. unfold App.slider_target in Ht. simpl in *.
  destruct image as [r'|]; [|discriminate]. destruct old as [b'|]; [|discriminate].
  injection Ht as -> ->.
  unfold App.preview, try_except, bind, App.on_world, Manager.get_filter, gets, call. simpl.
  rewrite Hk, Hf. cbn [App.world App._image App._original_for_sliders].
  rewrite (on_image_set w r img result Hr).
  destruct (shape2 result) as [hw|e]; unfold shown; simpl; now rewrite lookup_insert_eq.
Qed.

(** The brightness filter returns on every non-empty buffer for every offset
    in the 16-bit range, so the brightness slider's previews (positions from
    -100 to 100) go through. *)
Lemma brightness_returns (cv : OpenCV) (image : ndarray) (value : Z) :
  validate_image image = true ->
  -32768 <= value <= 32767 ->
  apply (BrightnessAdjustment cv) image [("value", PInt value)] =
  Ok (mk_ndarray (shape image) (map (fun p => clip_u8 (wrap16 (p + value))) (data image))).
Proof.
  intros Hv [Hlo Hhi]. simpl. unfold method_call, BrightnessAdjustment_apply. simpl.
  rewrite Hv. simpl. unfold brightness_int.
  apply Z.leb_le in Hlo, Hhi. now rewrite Hlo, Hhi.
Qed.



(** ** The theorems at work on the sample session *)

Lemma some_default {A : Type} (d : A) (o : option A) :
  match o with Some _ => true | None => false end = true -> o = Some (default d o).
Proof. destruct o; [reflexivity|discriminate]. Qed.

Lemma pair_of_fst {A B : Type} (p : A * B) (a : A) : fst p = a -> p = (a, snd p).
Proof. destruct p. simpl. now intros ->. Qed.

Lemma undo_round_trip_witness :
  document_buffer (undo_times (length Demo.two_edits) Demo.twice) =
    document_buffer (App.world Demo.opened) /\
  FilterManager._undo_stack (manager (undo_times (length Demo.two_edits) Demo.twice)) =
    FilterManager._undo_stack (manager (App.world Demo.opened)).
Proof.
  assert (Hall : apply_all Demo.two_edits (App.world Demo.opened) = Some Demo.twice)
    by (apply some_default; vm_compute; reflexivity).
  exact (undo_round_trip Demo.two_edits (App.world Demo.opened) Demo.twice Hall).
Defined.

Lemma redo_after_apply_witness :
  let out := Manager.apply_filter "brightness" [("value", PInt 10)] (App.world Demo.opened) in
  FilterManager._redo_stack (manager (snd out)) = [] /\
  Manager.redo (snd out) = (Ok false, snd out).
Proof.
  intros out.
  assert (Happ : out = (Ok true, snd out))
    by (apply pair_of_fst; vm_compute; reflexivity).
  exact (redo_after_apply_is_noop (App.world Demo.opened) (snd out)
           "brightness" [("value", PInt 10)] Happ).
Defined.

Lemma apply_filter_unknown_key_witness :
  fst (Manager.apply_filter "sharpen" [] (App.world Demo.edited)) = Ok false /\
  snd (Manager.apply_filter "sharpen" [] (App.world Demo.edited)) = App.world Demo.edited.
Proof.
  assert (Hk : FilterManager._registry (manager (App.world Demo.edited)) !! "sharpen" = None)
    by (vm_compute; reflexivity).
  pose proof (apply_filter_unknown_key (App.world Demo.edited) "sharpen" [] Hk) as H.
  split; [exact (proj1 H)|exact (proj1 (proj2 H))].
Defined.

Lemma apply_filter_without_image_witness :
  fst (Manager.apply_filter "blur" [("intensity", PInt 5)] (Manager.__init__ Demo.cv)) = Ok false /\
  snd (Manager.apply_filter "blur" [("intensity", PInt 5)] (Manager.__init__ Demo.cv)) =
    Manager.__init__ Demo.cv.
Proof.
  assert (Hc : FilterManager._current_image (manager (Manager.__init__ Demo.cv)) = None)
    by (vm_compute; reflexivity).
  pose proof (apply_filter_without_image (Manager.__init__ Demo.cv) "blur"
                [("intensity", PInt 5)] Hc) as H.
  split; [exact (proj1 H)|exact (proj1 (proj2 H))].
Defined.

Lemma blur_kernel_size_odd_witness : kernel_size 4 = 4 + 1.
Proof.
  apply (proj1 (proj2 (blur_kernel_size_odd Demo.cv Demo.photo 4))); [lia|reflexivity].
Defined.



(** * Further properties of the code *)

(** ** The history engine *)


Lemma redo_loaded (w : World) (r : ref) (img : Image.t) (b x : ndarray) (u : list ndarray) :
  FilterManager._current_image (manager w) = Some r ->
  heap w !! r = Some img ->
  Image._current_image img = Some b ->
  FilterManager._redo_stack (manager w) = (u ++ [x])%list ->
  snd (Manager.redo w) =
  mk_World
    (<[r := match shape2 x with
            | Ok hw => Image.with_dims hw (Image.with_current (Some x) img)
            | Raise _ => Image.with_current (Some x) img
            end]> (heap w))
    (next_ref w)
    (FilterManager.mk (FilterManager._registry (manager w)) (FilterManager._history (manager w))
       (Some r) (FilterManager._undo_stack (manager w) ++ [b]) u)
  /\ (forall hw, shape2 x = Ok hw -> fst (Manager.redo w) = Ok true).
Proof.
  intros Hc Hr Hb Hu.
  assert (Hs : exists y l, (u ++ [x])%list = y :: l) by (destruct u; simpl; eauto).
  destruct Hs as (y & l & Hs).
  unfold Manager.redo, bind, Manager.current_image, gets.
  rewrite Hu, Hs, Hc. rewrite (on_image_get w r img Hr), Hb. cbn [Image.copy_of]. unfold np_copy.
  unfold Manager.undo_append, modify, Manager.redo_pop. unfold_setters.
  rewrite Hu, list_pop_app.
  rewrite (on_image_set _ r img x) by exact Hr.
  destruct (shape2 x) as [hw|e]; simpl; rewrite Hc; split; intros; try reflexivity; discriminate.
Qed.

Lemma snoc_of_cons {A : Type} (x : A) (l : list A) : exists u y, x :: l = (u ++ [y])%list.
Proof.
  destruct (exists_last (l := x :: l)) as (u & y & H); [discriminate|]. eauto.
Qed.

(** What [undo] needs in order to return [True]. *)
Lemma undo_true (w : World) :
  fst (Manager.undo w) = Ok true ->
  exists r img b u x,
    FilterManager._current_image (manager w) = Some r /\
    heap w !! r = Some img /\
    Image._current_image img = Some b /\
    FilterManager._undo_stack (manager w) = (u ++ [x])%list.
Proof.
  intros Hun.
  destruct (FilterManager._undo_stack (manager w)) as [|x0 l] eqn:Hu.
  { rewrite undo_empty in Hun by exact Hu. discriminate. }
  destruct (snoc_of_cons x0 l) as (u & x & Hs).
  destruct (FilterManager._current_image (manager w)) as [r|] eqn:Hc.
  2: { unfold Manager.undo, bind, Manager.current_image, gets in Hun.
       rewrite Hu, Hc in Hun. discriminate. }
  destruct (heap w !! r) as [img|] eqn:Hr.
  2: { unfold Manager.undo, bind, Manager.current_image, gets in Hun.
       rewrite Hu, Hc in Hun. rewrite on_image_dangling in Hun by exact Hr. discriminate. }
  destruct (Image._current_image img) as [b|] eqn:Hb.
  2: { unfold Manager.undo, bind, Manager.current_image, gets in Hun.
       rewrite Hu, Hc in Hun. rewrite (on_image_get w r img Hr), Hb in Hun. discriminate. }
  exists r, img, b, u, x. rewrite <- Hs. auto.
Qed.

Lemma redo_true (w : World) :
  fst (Manager.redo w) = Ok true ->
  exists r img b u x,
    FilterManager._current_image (manager w) = Some r /\
    heap w !! r = Some img /\
    Image._current_image img = Some b /\
    FilterManager._redo_stack (manager w) = (u ++ [x])%list.
Proof.
  intros Hun.
  destruct (FilterManager._redo_stack (manager w)) as [|x0 l] eqn:Hu.
  { rewrite redo_empty in Hun by exact Hu. discriminate. }
  destruct (snoc_of_cons x0 l) as (u & x & Hs).
  destruct (FilterManager._current_image (manager w)) as [r|] eqn:Hc.
  2: { unfold Manager.redo, bind, Manager.current_image, gets in Hun.
       rewrite Hu, Hc in Hun. discriminate. }
  destruct (heap w !! r) as [img|] eqn:Hr.
  2: { unfold Manager.redo, bind, Manager.current_image, gets in Hun.
       rewrite Hu, Hc in Hun. rewrite on_image_dangling in Hun by exact Hr. discriminate. }
  destruct (Image._current_image img) as [b|] eqn:Hb.
  2: { unfold Manager.redo, bind, Manager.current_image, gets in Hun.
       rewrite Hu, Hc in Hun. rewrite (on_image_get w r img Hr), Hb in Hun. discriminate. }
  exists r, img, b, u, x. rewrite <- Hs. auto.
Qed.

(** X2.  An [undo] that returned [True] is taken back by the [redo] that follows:
    the buffer and both stacks are what they were before the [undo]. *)
Theorem undo_then_redo (w : World) :
  fst (Manager.undo w) = Ok true ->
  let w' := snd (Manager.redo (snd (Manager.undo w))) in
  document_buffer w' = document_buffer w /\
  FilterManager._undo_stack (manager w') = FilterManager._undo_stack (manager w) /\
  FilterManager._redo_stack (manager w') = FilterManager._redo_stack (manager w).
Proof.
  intros Hun. cbv zeta.
  destruct (undo_true w Hun) as (r & img & b & u & x & Hc & Hr & Hb & Hu).
  destruct (undo_loaded w r img b x u Hc Hr Hb Hu) as [Hw1 _].
  set (w1 := snd (Manager.undo w)) in *.
  set (img1 := match shape2 x with
               | Ok hw => Image.with_dims hw (Image.with_current (Some x) img)
               | Raise _ => Image.with_current (Some x) img
               end) in *.
  assert (Hc1 : FilterManager._current_image (manager w1) = Some r) by now rewrite Hw1.
  assert (Hr1 : heap w1 !! r = Some img1) by (rewrite Hw1; simpl; apply lookup_insert_eq).
  assert (Hb1 : Image._current_image img1 = Some x) by (unfold img1; now destruct (shape2 x)).
  assert (Hu1 : FilterManager._redo_stack (manager w1) =
                (FilterManager._redo_stack (manager w) ++ [b])%list) by now rewrite Hw1.
  destruct (redo_loaded w1 r img1 x b _ Hc1 Hr1 Hb1 Hu1) as [Hw2 _].
  rewrite Hw2. unfold document_buffer. simpl.
  rewrite lookup_insert_eq, Hc, Hr, Hb, Hw1. simpl. rewrite Hu.
  repeat split. now destruct (shape2 b).
Qed.

(** X3.  A [redo] that returned [True] is taken back by the [undo] that follows. *)
Theorem redo_then_undo (w : World) :
  fst (Manager.redo w) = Ok true ->
  let w' := snd (Manager.undo (snd (Manager.redo w))) in
  document_buffer w' = document_buffer w /\
  FilterManager._undo_stack (manager w') = FilterManager._undo_stack (manager w) /\
  FilterManager._redo_stack (manager w') = FilterManager._redo_stack (manager w).
Proof.
  intros Hre. cbv zeta.
  destruct (redo_true w Hre) as (r & img & b & u & x & Hc & Hr & Hb & Hu).
  destruct (redo_loaded w r img b x u Hc Hr Hb Hu) as [Hw1 _].
  set (w1 := snd (Manager.redo w)) in *.
  set (img1 := match shape2 x with
               | Ok hw => Image.with_dims hw (Image.with_current (Some x) img)
               | Raise _ => Image.with_current (Some x) img
               end) in *.
  assert (Hc1 : FilterManager._current_image (manager w1) = Some r) by now rewrite Hw1.
  assert (Hr1 : heap w1 !! r = Some img1) by (rewrite Hw1; simpl; apply lookup_insert_eq).
  assert (Hb1 : Image._current_image img1 = Some x) by (unfold img1; now destruct (shape2 x)).
  assert (Hu1 : FilterManager._undo_stack (manager w1) =
                (FilterManager._undo_stack (manager w) ++ [b])%list) by now rewrite Hw1.
  destruct (undo_loaded w1 r img1 x b _ Hc1 Hr1 Hb1 Hu1) as [Hw2 _].
  rewrite Hw2. unfold document_buffer. simpl.
  rewrite lookup_insert_eq, Hc, Hr, Hb, Hw1. simpl. rewrite Hu.
  repeat split. now destruct (shape2 b).
Qed.

(** [undo] either changes nothing or runs on a loaded document with a
    non-empty stack. *)
Lemma undo_cases (w : World) :
  snd (Manager.undo w) = w \/
  exists r img b u x,
    FilterManager._current_image (manager w) = Some r /\
    heap w !! r = Some img /\
    Image._current_image img = Some b /\
    FilterManager._undo_stack (manager w) = (u ++ [x])%list.
Proof.
  destruct (FilterManager._undo_stack (manager w)) as [|x0 l] eqn:Hu.
  { left. now rewrite undo_empty. }
  destruct (snoc_of_cons x0 l) as (u & x & Hs).
  destruct (FilterManager._current_image (manager w)) as [r|] eqn:Hc.
  2: { left. unfold Manager.undo, bind, Manager.current_image, gets. now rewrite Hu, Hc. }
  destruct (heap w !! r) as [img|] eqn:Hr.
  2: { left. unfold Manager.undo, bind, Manager.current_image, gets.
       rewrite Hu, Hc. now rewrite on_image_dangling. }
  destruct (Image._current_image img) as [b|] eqn:Hb.
  2: { left. unfold Manager.undo, bind, Manager.current_image, gets.
       rewrite Hu, Hc. now rewrite (on_image_get w r img Hr), Hb. }
  right. exists r, img, b, u, x. rewrite <- Hs. auto.
Qed.

Lemma redo_cases (w : World) :
  snd (Manager.redo w) = w \/
  exists r img b u x,
    FilterManager._current_image (manager w) = Some r /\
    heap w !! r = Some img /\
    Image._current_image img = Some b /\
    FilterManager._redo_stack (manager w) = (u ++ [x])%list.
Proof.
  destruct (FilterManager._redo_stack (manager w)) as [|x0 l] eqn:Hu.
  { left. now rewrite redo_empty. }
  destruct (snoc_of_cons x0 l) as (u & x & Hs).
  destruct (FilterManager._current_image (manager w)) as [r|] eqn:Hc.
  2: { left. unfold Manager.redo, bind, Manager.current_image, gets. now rewrite Hu, Hc. }
  destruct (heap w !! r) as [img|] eqn:Hr.
  2: { left. unfold Manager.redo, bind, Manager.current_image, gets.
       rewrite Hu, Hc. now rewrite on_image_dangling. }
  destruct (Image._current_image img) as [b|] eqn:Hb.
  2: { left. unfold Manager.redo, bind, Manager.current_image, gets.
       rewrite Hu, Hc. now rewrite (on_image_get w r img Hr), Hb. }
  right. exists r, img, b, u, x. rewrite <- Hs. auto.
Qed.

(** X4.  [undo] and [redo] only move snapshots between the two stacks: the log,
    the registry and the image reference are untouched, and the two stacks
    together hold as many snapshots as before. *)
Theorem undo_redo_move_snapshots (w : World) :
  let conserved (w' : World) :=
    FilterManager._history (manager w') = FilterManager._history (manager w) /\
    FilterManager._registry (manager w') = FilterManager._registry (manager w) /\
    FilterManager._current_image (manager w') = FilterManager._current_image (manager w) /\
    (length (FilterManager._undo_stack (manager w')) +
     length (FilterManager._redo_stack (manager w')) =
     length (FilterManager._undo_stack (manager w)) +
     length (FilterManager._redo_stack (manager w)))%nat in
  conserved (snd (Manager.undo w)) /\ conserved (snd (Manager.redo w)).
Proof.
  cbv zeta. split.
  - destruct (undo_cases w) as [->|(r & img & b & u & x & Hc & Hr & Hb & Hu)]; [auto|].
    destruct (undo_loaded w r img b x u Hc Hr Hb Hu) as [-> _]. simpl.
    rewrite Hc, Hu, !length_app. simpl. repeat split. lia.
  - destruct (redo_cases w) as [->|(r & img & b & u & x & Hc & Hr & Hb & Hu)]; [auto|].
    destruct (redo_loaded w r img b x u Hc Hr Hb Hu) as [-> _]. simpl.
    rewrite Hc, Hu, !length_app. simpl. repeat split. lia.
Qed.

(** X5.  After an [apply_filter] that returned [True], [undo] shows the buffer
    from before the edit and [redo] then shows the filter's result again,
    with the undo stack as the edit left it. *)
Theorem apply_undo_redo (w w' : World) (filter_key : string) (kw : kwargs) :
  Manager.apply_filter filter_key kw w = (Ok true, w') ->
  document_buffer (snd (Manager.undo w')) = document_buffer w /\
  document_buffer (snd (Manager.redo (snd (Manager.undo w')))) = document_buffer w' /\
  FilterManager._undo_stack (manager (snd (Manager.redo (snd (Manager.undo w'))))) =
    FilterManager._undo_stack (manager w') /\
  FilterManager._redo_stack (manager (snd (Manager.redo (snd (Manager.undo w'))))) = [].
Proof.
  intros Happ.
  apply apply_filter_true in Happ
    as (r & img & b & f & p & hw & Hc & Hr & Hb & Hk & Hf & Hp & ->).
  set (img1 := Image.with_dims hw (Image.with_current (Some p) img)).
  set (w1 := mk_World (<[r:=img1]> (heap w)) (next_ref w)
               (FilterManager.mk (FilterManager._registry (manager w))
                  (FilterManager._history (manager w) ++ [Manager.operation_text f kw])
                  (Some r) (FilterManager._undo_stack (manager w) ++ [b]) [])).
  assert (Hr1 : heap w1 !! r = Some img1) by apply lookup_insert_eq.
  destruct (undo_loaded w1 r img1 p b (FilterManager._undo_stack (manager w))
              eq_refl Hr1 eq_refl eq_refl) as [Hw2 _].
  set (w2 := snd (Manager.undo w1)) in *.
  set (img2 := match shape2 b with
               | Ok hw0 => Image.with_dims hw0 (Image.with_current (Some b) img1)
               | Raise _ => Image.with_current (Some b) img1
               end) in *.
  assert (Hc2 : FilterManager._current_image (manager w2) = Some r) by now rewrite Hw2.
  assert (Hr2 : heap w2 !! r = Some img2) by (rewrite Hw2; apply lookup_insert_eq).
  assert (Hb2 : Image._current_image img2 = Some b) by (unfold img2; now destruct (shape2 b)).
  assert (Hu2 : FilterManager._redo_stack (manager w2) = ([] ++ [p])%list) by now rewrite Hw2.
  destruct (redo_loaded w2 r img2 b p [] Hc2 Hr2 Hb2 Hu2) as [Hw3 _].
  rewrite Hw3. unfold document_buffer at 1 2. rewrite Hc2, Hr2, Hb2, Hc, Hr, Hb.
  split; [reflexivity|]. unfold document_buffer. simpl. rewrite !lookup_insert_eq.
  rewrite Hw2. simpl. repeat split. now destruct (shape2 p).
Qed.

(** X6.  When [apply_filter] returns [False] on a document whose image object
    holds a buffer (or with no document at all), the undo stack, the log,
    the registry and the image reference are what they were. *)
Theorem failed_apply_keeps_undo_and_log (w : World) (filter_key : string) (kw : kwargs) :
  FilterManager._current_image (manager w) = None \/ is_Some (document_buffer w) ->
  fst (Manager.apply_filter filter_key kw w) = Ok false ->
  let w' := snd (Manager.apply_filter filter_key kw w) in
  FilterManager._undo_stack (manager w') = FilterManager._undo_stack (manager w) /\
  FilterManager._history (manager w') = FilterManager._history (manager w) /\
  FilterManager._registry (manager w') = FilterManager._registry (manager w) /\
  FilterManager._current_image (manager w') = FilterManager._current_image (manager w).
Proof.
  intros Hdoc Hfalse. cbv zeta.
  destruct (FilterManager._current_image (manager w)) as [r|] eqn:Hc.
  2: { rewrite apply_filter_no_image by exact Hc. simpl. now rewrite Hc. }
  destruct Hdoc as [Hn|[b Hdoc]]; [discriminate|].
  apply document_buffer_loaded in Hdoc as (r' & img & Hc' & Hr & Hb).
  rewrite Hc in Hc'. injection Hc' as <-.
  destruct (FilterManager._registry (manager w) !! filter_key) as [f|] eqn:Hk.
  2: { rewrite apply_filter_unknown by exact Hk. simpl. now rewrite Hc. }
  rewrite (apply_filter_loaded w filter_key kw r img b f Hc Hr Hb Hk) in *.
  destruct (apply f b kw) as [p|e]; [|simpl; now rewrite Hc].
  destruct (shape2 p) as [hw|e]; [discriminate|]. simpl. now rewrite Hc.
Qed.

(** X7.  [can_undo] and [can_redo] tell what [undo] and [redo] will do: when they
    answer [False] the operation returns [False] and changes nothing, and
    right after an [apply_filter] that returned [True] they answer [True]
    and [False]. *)
Theorem can_undo_can_redo_predict (w : World) :
  (fst (Manager.can_undo w) = Ok false -> Manager.undo w = (Ok false, w)) /\
  (fst (Manager.can_redo w) = Ok false -> Manager.redo w = (Ok false, w)) /\
  (forall filter_key kw w',
     Manager.apply_filter filter_key kw w = (Ok true, w') ->
     Manager.can_undo w' = (Ok true, w') /\ Manager.can_redo w' = (Ok false, w')).
Proof.
  unfold Manager.can_undo, Manager.can_redo, gets. simpl. repeat split.
  - destruct (FilterManager._undo_stack (manager w)) eqn:Hu; [|discriminate].
    intros _. now apply undo_empty.
  - destruct (FilterManager._redo_stack (manager w)) eqn:Hu; [|discriminate].
    intros _. now apply redo_empty.
  - apply apply_filter_true in H
      as (r & img & b & f & p & hw & Hc & Hr & Hb & Hk & Hf & Hp & ->). simpl.
    now destruct (FilterManager._undo_stack (manager w)).
  - apply apply_filter_true in H
      as (r & img & b & f & p & hw & Hc & Hr & Hb & Hk & Hf & Hp & ->). reflexivity.
Qed.

(** ** Registry and log *)

(** X8.  Registering a filter makes [get_filter] return it under that key,
    replacing whatever was there; the other keys, the stacks, the log and
    the images are untouched, and the registry grows by one only when the
    key is new. *)
Theorem register_then_get (w : World) (key other : string) (filter_obj : FilterProcessor) :
  let w' := snd (Manager.register_filter key filter_obj w) in
  fst (Manager.get_filter key w') = Ok (Some filter_obj) /\
  (other <> key -> fst (Manager.get_filter other w') = fst (Manager.get_filter other w)) /\
  FilterManager_contains key w' = true /\
  FilterManager_len w' =
    (if FilterManager_contains key w then FilterManager_len w else S (FilterManager_len w)) /\
  FilterManager._history (manager w') = FilterManager._history (manager w) /\
  FilterManager._undo_stack (manager w') = FilterManager._undo_stack (manager w) /\
  FilterManager._redo_stack (manager w') = FilterManager._redo_stack (manager w) /\
  heap w' = heap w.
Proof.
  cbv zeta. unfold Manager.register_filter, Manager.get_filter, modify, gets,
    FilterManager_contains, FilterManager_len. unfold_setters.
  rewrite lookup_insert_eq. repeat split.
  - intros Hne. now rewrite lookup_insert_ne.
  - destruct (FilterManager._registry (manager w) !! key) as [g|] eqn:Hk.
    + rewrite <- (insert_delete_id (FilterManager._registry (manager w)) key g Hk) at 2.
      rewrite <- (insert_delete_eq (FilterManager._registry (manager w))).
      rewrite !map_size_insert_None by apply lookup_delete_eq. reflexivity.
    + now apply map_size_insert_None.
Qed.

Lemma default_registry (cv : OpenCV) :
  FilterManager._registry (manager (Manager.__init__ cv)) =
  <["resize" := ResizeFilter cv]> (<["flip" := FlipFilter]> (<["rotate" := RotationFilter cv]>
  (<["contrast" := ContrastAdjustment cv]> (<["brightness" := BrightnessAdjustment cv]>
  (<["edge" := EdgeDetectionFilter cv]> (<["blur" := BlurFilter cv]>
  (<["grayscale" := GrayscaleFilter cv]> ∅))))))).
Proof. reflexivity. Qed.

(** X9.  A new manager holds exactly the eight default filters, no image, empty
    stacks and an empty log; every other key is unknown to it. *)
Theorem new_manager_state (cv : OpenCV) (key : string) :
  (FilterManager_contains key (Manager.__init__ cv) = true <-> In key default_keys) /\
  FilterManager_len (Manager.__init__ cv) = 8%nat /\
  FilterManager._current_image (manager (Manager.__init__ cv)) = None /\
  FilterManager._undo_stack (manager (Manager.__init__ cv)) = [] /\
  FilterManager._redo_stack (manager (Manager.__init__ cv)) = [] /\
  FilterManager._history (manager (Manager.__init__ cv)) = [] /\
  heap (Manager.__init__ cv) = ∅.
Proof.
  split; [|repeat split].
  unfold FilterManager_contains. rewrite default_registry. unfold default_keys. simpl.
  repeat match goal with
  | |- context [<[?k := _]> _ !! key] =>
      destruct (decide (k = key)) as [<-|?];
      [rewrite lookup_insert_eq; split; [intros _; tauto|reflexivity]
      |rewrite lookup_insert_ne by assumption]
  end.
  rewrite lookup_empty. split; [discriminate|]. intros H.
  repeat (destruct H as [H|H]; [congruence|]). destruct H.
Qed.

(** X10.  [add_to_history] appends: the line is the last operation and the last
    entry of [get_history], after the entries that were there; and
    [clear_history] leaves no entry and no last operation.  Neither touches
    the stacks. *)
Theorem history_tracker_log (w : World) (operation : pystr) :
  let added := snd (Manager.add_to_history operation w) in
  let cleared := snd (Manager.clear_history w) in
  fst (Manager.get_history added) = Ok (FilterManager._history (manager w) ++ [operation])%list /\
  fst (Manager.last_operation added) = Ok (Some operation) /\
  fst (Manager.get_history cleared) = Ok [] /\
  fst (Manager.last_operation cleared) = Ok None /\
  FilterManager._undo_stack (manager added) = FilterManager._undo_stack (manager w) /\
  FilterManager._redo_stack (manager added) = FilterManager._redo_stack (manager w) /\
  FilterManager._undo_stack (manager cleared) = FilterManager._undo_stack (manager w) /\
  FilterManager._redo_stack (manager cleared) = FilterManager._redo_stack (manager w).
Proof.
  cbv zeta. unfold Manager.add_to_history, Manager.clear_history, Manager.get_history,
    Manager.last_operation, modify, gets. unfold_setters.
  rewrite last_snoc. repeat split.
Qed.

(** ** The image object *)

(** X11.  [Image(filepath)] succeeds exactly when the file decodes to an array
    with at least two axes; the new object then holds the decoded array as
    both buffers and its height and width.  A file that does not decode is a
    [ValueError] and no object. *)
Theorem image_constructor (cv : OpenCV) (path : string) (img : Image.t) :
  (Image.__init__ cv path = Ok img <->
   exists image h w,
     imread cv path = Some image /\ shape2 image = Ok (h, w) /\
     img = Image.mk path (Some image) (Some image) w h) /\
  (imread cv path = None -> Image.__init__ cv path = Raise ValueError).
Proof.
  unfold Image.__init__, Image._load_image, bind, gets, modify, call, raise. simpl.
  destruct (imread cv path) as [image|]; [|split; [|reflexivity]].
  - destruct (shape2 image) as [[h w]|e] eqn:Hs; simpl; (split; [|discriminate]).
    + split.
      * intros H. injection H as <-. exists image, h, w. auto.
      * intros (image' & h' & w' & Hi & Hs' & ->). injection Hi as <-.
        rewrite Hs in Hs'. now injection Hs' as <- <-.
    + split; [discriminate|].
      intros (image' & h' & w' & Hi & Hs' & _). injection Hi as <-. congruence.
  - split; [discriminate|]. intros (image' & h' & w' & Hi & _). discriminate.
Qed.

(** X12.  The setter stores the array it is given and the getter returns it, even
    when the array has fewer than two axes: then the setter raises after the
    buffer is replaced and the recorded width and height are stale.  With
    two axes or more, [dimensions] is (width, height) of the new buffer.
    The original buffer is never touched. *)
Theorem setter_then_getter (img : Image.t) (a : ndarray) :
  let out := Image.set_current_image a img in
  fst (Image.current_image (snd out)) = Ok a /\
  Image._original_image (snd out) = Image._original_image img /\
  match shape2 a with
  | Ok (h, w) => fst out = Ok tt /\ fst (Image.dimensions (snd out)) = Ok (w, h)
  | Raise e =>
      fst out = Raise e /\
      fst (Image.dimensions (snd out)) = Ok (Image._width img, Image._height img)
  end.
Proof.
  cbv zeta. unfold Image.set_current_image, Image.current_image, Image.dimensions,
    bind, gets, modify, call. simpl.
  destruct (shape2 a) as [[h w]|e]; simpl; repeat split.
Qed.

Lemma set_all_original (arrays : list ndarray) (img : Image.t) :
  Image._original_image (set_all arrays img) = Image._original_image img.
Proof.
  revert img. induction arrays as [|a rest IH]; intros img; [reflexivity|].
  simpl. rewrite IH.
  unfold Image.set_current_image, bind, modify, call. simpl.
  now destruct (shape2 a).
Qed.

(** X13.  However many times the setter has run, [reset_to_original] puts the
    original buffer back as the current one and leaves the original in
    place; when the original has two axes the call returns and the recorded
    height and width are the original's. *)
Theorem reset_after_edits (img : Image.t) (o : ndarray) (arrays : list ndarray) :
  Image._original_image img = Some o ->
  let out := Image.reset_to_original (set_all arrays img) in
  Image._current_image (snd out) = Some o /\
  Image._original_image (snd out) = Some o /\
  forall h w, shape2 o = Ok (h, w) ->
    fst out = Ok tt /\ Image._height (snd out) = h /\ Image._width (snd out) = w.
Proof.
  intros Ho. cbv zeta.
  pose proof (set_all_original arrays img) as Hsame. rewrite Ho in Hsame.
  unfold Image.reset_to_original, Image.original_image, bind, gets, modify, call. simpl.
  rewrite Hsame. simpl. unfold np_copy.
  destruct (shape2 o) as [[h w]|e] eqn:Hs; simpl; rewrite ?Hsame; repeat split;
    intros; try congruence; try discriminate.
Qed.

(** X14.  [update_original] makes the current buffer the original: a
    [reset_to_original] after it keeps the current buffer instead of going
    back to the one that was loaded. *)
Theorem update_original_rebases (img : Image.t) (c : ndarray) :
  Image._current_image img = Some c ->
  let rebased := snd (Image.update_original img) in
  fst (Image.update_original img) = Ok tt /\
  Image._original_image rebased = Some c /\
  Image._current_image rebased = Some c /\
  Image._current_image (snd (Image.reset_to_original rebased)) = Some c /\
  Image._original_image (snd (Image.reset_to_original rebased)) = Some c.
Proof.
  intros Hc. cbv zeta.
  unfold Image.update_original, Image.reset_to_original, Image.original_image,
    Image.current_image, bind, gets, modify, call. simpl.
  rewrite Hc. simpl. unfold np_copy. destruct (shape2 c); simpl; repeat split; assumption.
Qed.

(** ** The filters *)

(** X15.  Every default filter refuses an empty buffer with [ValueError], before
    looking at its parameters and before calling the library. *)
Theorem filters_reject_empty_buffer (cv : OpenCV) (f : FilterProcessor)
    (image : ndarray) (kw : kwargs) :
  In f (default_filters cv) ->
  validate_image image = false ->
  kw_has kw "image" = false ->
  kw_has kw "self" = false ->
  apply f image kw = Raise ValueError.
Proof.
  intros Hin Hv Hi Hs. unfold default_filters in Hin. simpl in Hin.
  repeat (destruct Hin as [<-|Hin]); try contradiction; simpl;
    unfold method_call; rewrite Hi, Hs; simpl;
    unfold GrayscaleFilter_apply, BlurFilter_apply, EdgeDetectionFilter_apply,
      BrightnessAdjustment_apply, ContrastAdjustment_apply, RotationFilter_apply,
      FlipFilter_apply, ResizeFilter_apply; now rewrite Hv.
Qed.

Lemma clip_u8_range (x : Z) : 0 <= clip_u8 x <= 255.
Proof. unfold clip_u8. lia. Qed.

Lemma wrap16_id (x : Z) : -32768 <= x <= 32767 -> wrap16 x = x.
Proof.
  intros H. unfold wrap16. rewrite Z.mod_small by lia. lia.
Qed.

(** X16.  Brightness with an integer offset in the 16-bit range returns on every
    non-empty buffer, with the same shape, as many samples, and every sample
    between 0 and 255.  On 8-bit samples and an offset up to 32512 each
    sample is the sum clipped to that range. *)
Theorem brightness_adds_and_clips (cv : OpenCV) (image : ndarray) (value : Z) :
  validate_image image = true ->
  -32768 <= value <= 32767 ->
  exists result,
    apply (BrightnessAdjustment cv) image [("value", PInt value)] = Ok result /\
    shape result = shape image /\
    length (data result) = length (data image) /\
    samples_8bit result /\
    (samples_8bit image -> value <= 32512 ->
     data result = map (fun p => clip_u8 (p + value)) (data image)).
Proof.
  intros Hv Hr. rewrite (brightness_returns cv image value Hv Hr).
  eexists. split; [reflexivity|]. simpl. split; [reflexivity|].
  split; [apply length_map|]. split.
  - unfold samples_8bit. simpl. apply Forall_map, Forall_forall. intros p _. apply clip_u8_range.
  - intros H8 Hhi. apply map_ext_in. intros p Hp.
    unfold samples_8bit in H8. rewrite Forall_forall in H8.
    apply list_elem_of_In, H8 in Hp. rewrite wrap16_id by lia. reflexivity.
Qed.

(** X17.  Brightness 0, which is also the default when no value is given, returns
    an 8-bit image unchanged. *)
Theorem brightness_zero_is_identity (cv : OpenCV) (image : ndarray) :
  validate_image image = true ->
  samples_8bit image ->
  apply (BrightnessAdjustment cv) image [("value", PInt 0)] = Ok image /\
  apply (BrightnessAdjustment cv) image [] = Ok image.
Proof.
  intros Hv H8.
  assert (Hid : map (fun p => clip_u8 (wrap16 (p + 0))) (data image) = data image).
  { rewrite <- (map_id (data image)) at 2. apply map_ext_in. intros p Hp.
    unfold samples_8bit in H8. rewrite Forall_forall in H8.
    apply list_elem_of_In, H8 in Hp. rewrite wrap16_id by lia. unfold clip_u8. lia. }
  split.
  - rewrite (brightness_returns cv image 0 Hv) by lia. rewrite Hid. now destruct image.
  - simpl. unfold method_call, BrightnessAdjustment_apply. simpl. rewrite Hv. simpl.
    unfold brightness_int. simpl. rewrite Hid. now destruct image.
Qed.

Lemma kernel_size_parity (i : Z) :
  kernel_size i = Z.max 1 (if Z.even i then i + 1 else i).
Proof.
  unfold kernel_size. rewrite Zmod_even. now destruct (Z.even i).
Qed.

Lemma kernel_size_is_odd (i : Z) : Z.even (kernel_size i) = false.
Proof.
  rewrite kernel_size_parity. destruct (Z.even i) eqn:He.
  - destruct (Z.max_spec 1 (i + 1)) as [[_ ->]|[_ ->]]; [|reflexivity].
    rewrite Z.add_1_r, Z.even_succ, <- Z.negb_even, He. reflexivity.
  - destruct (Z.max_spec 1 i) as [[_ ->]|[_ ->]]; [exact He|reflexivity].
Qed.

(** X18.  The blur slider's handler makes an even position odd before calling the
    filter, and the filter does the same to its intensity: the two agree, so
    a preview at position [v] blurs with the kernel that
    [apply(intensity=int(v))] would use, and the parity fix applied twice is
    the parity fix applied once. *)
Theorem blur_slider_kernel (cv : OpenCV) (baseline : ndarray) (v : float) (i : Z) :
  py_int_of_float v = Ok i ->
  let i' := if i mod 2 =? 0 then i + 1 else i in
  preview_request (MoveBlur v) = Ok ("blur", [("intensity", PInt i')]) /\
  kernel_size i' = kernel_size i /\
  kernel_size (kernel_size i) = kernel_size i /\
  apply (BlurFilter cv) baseline [("intensity", PInt i')] =
    apply (BlurFilter cv) baseline [("intensity", PInt i)].
Proof.
  intros Hv. cbv zeta.
  assert (Hk : kernel_size (if i mod 2 =? 0 then i + 1 else i) = kernel_size i).
  { rewrite !kernel_size_parity. rewrite Zmod_even.
    destruct (Z.even i) eqn:He; simpl; [|now rewrite He].
    now rewrite Z.add_1_r, Z.even_succ, <- Z.negb_even, He. }
  split; [simpl; now rewrite Hv|]. split; [exact Hk|]. split.
  - rewrite (kernel_size_parity (kernel_size i)), kernel_size_is_odd.
    rewrite kernel_size_parity. lia.
  - simpl. unfold method_call, BlurFilter_apply. simpl. now rewrite Hk.
Qed.

(** X19.  Parameters that [validate_filter_params] accepts are safe for the
    filters: an accepted blur intensity lies between 1 and 50 and gives an
    odd kernel of that size or the next, at most 51; an accepted brightness
    value never makes the brightness filter raise on a non-empty buffer.
    A filter type without a rule is always accepted. *)
Theorem validated_params_are_safe (cv : OpenCV) (image : ndarray) (i v : Z)
    (filter_type : string) (kw : kwargs) :
  (validate_filter_params "blur" [("intensity", PInt i)] = Ok true ->
   1 <= i <= 50 /\ i <= kernel_size i <= i + 1 /\ kernel_size i <= 51 /\
   Z.odd (kernel_size i) = true) /\
  (validate_filter_params "brightness" [("value", PInt v)] = Ok true ->
   validate_image image = true ->
   exists result, apply (BrightnessAdjustment cv) image [("value", PInt v)] = Ok result) /\
  (filter_type <> "blur" -> filter_type <> "brightness" -> filter_type <> "contrast" ->
   kw_has kw "filter_type" = false ->
   validate_filter_params filter_type kw = Ok true).
Proof.
  repeat split.
  1-5: unfold validate_filter_params in H; simpl in H; injection H as H;
       apply andb_prop in H as [Hlo Hhi]; apply Z.leb_le in Hlo, Hhi.
  1-2: assumption.
  1-3: rewrite kernel_size_parity; destruct (Z.even i); lia.
  - rewrite <- Z.negb_even, kernel_size_is_odd. reflexivity.
  - intros H Hv. unfold validate_filter_params in H. simpl in H. injection H as H.
    apply andb_prop in H as [Hlo Hhi]. apply Z.leb_le in Hlo, Hhi.
    eexists. apply brightness_returns; [exact Hv|lia].
  - intros Hb Hbr Hc Hkw. unfold validate_filter_params. rewrite Hkw.
    apply String.eqb_neq in Hb, Hbr, Hc. now rewrite Hb, Hbr, Hc.
Qed.

(** X20.  Resize: when width and height are both given (and not zero) they decide
    the target size and [scale] is ignored; with an integer scale [k] alone
    the target is [k] times the width and the height.  In both cases a
    target that is not positive makes the call raise. *)
Theorem resize_target_size (cv : OpenCV) (image : ndarray) (kw : kwargs)
    (w h k : Z) (rows cols : nat) (rest : list nat) :
  validate_image image = true ->
  (kw_has kw "image" = false -> kw_has kw "self" = false ->
   kw_get kw "width" PNone = PInt w -> kw_get kw "height" PNone = PInt h ->
   w <> 0 -> h <> 0 ->
   apply (ResizeFilter cv) image kw =
     if (0 <? w) && (0 <? h) then resize_linear cv image w h else Raise cv2_error) /\
  (shape image = rows :: cols :: rest ->
   apply (ResizeFilter cv) image [("scale", PInt k)] =
     if 0 <? k then resize_linear cv image (Z.of_nat cols * k) (Z.of_nat rows * k)
     else Raise cv2_error).
Proof.
  intros Hv. split.
  - intros Hi Hs Hw Hh Hw0 Hh0. simpl. unfold method_call. rewrite Hi, Hs. simpl.
    unfold ResizeFilter_apply. rewrite Hv, Hw, Hh. simpl.
    apply Z.eqb_neq in Hw0, Hh0. rewrite Hw0, Hh0. reflexivity.
  - intros Hsh. simpl. unfold method_call. simpl.
    unfold ResizeFilter_apply. rewrite Hv. simpl.
    unfold scaled_dim, shape_at. rewrite Hsh. simpl. unfold cv2_resize.
    assert (Hpos : (0 < rows)%nat /\ (0 < cols)%nat).
    { unfold validate_image, np_size in Hv. rewrite Hsh in Hv. simpl in Hv.
      apply Nat.ltb_lt in Hv. split; [destruct rows|destruct cols; [rewrite Nat.mul_0_r in Hv|]];
        simpl in Hv; lia. }
    destruct (0 <? k) eqn:Hk.
    + apply Z.ltb_lt in Hk.
      assert (H1 : (0 <? Z.of_nat cols * k) = true) by (apply Z.ltb_lt; nia).
      assert (H2 : (0 <? Z.of_nat rows * k) = true) by (apply Z.ltb_lt; nia).
      now rewrite H1, H2.
    + apply Z.ltb_ge in Hk.
      assert (H1 : (0 <? Z.of_nat cols * k) = false) by (apply Z.ltb_ge; nia).
      now rewrite H1.
Qed.

(** ** Flips and rotations as pixel permutations *)




















(** ** The window *)

Lemma image_ok_set (a : ndarray) (img : Image.t) :
  image_ok img -> image_ok (snd (Image.set_current_image a img)).
Proof.
  intros [Ho Hc]. unfold Image.set_current_image, bind, modify, call. simpl.
  destruct (shape2 a); split; simpl; eauto.
Qed.

Lemma image_ok_reset (img : Image.t) :
  image_ok img -> image_ok (snd (Image.reset_to_original img)).
Proof.
  intros [[o Ho] Hc].
  unfold Image.reset_to_original, Image.original_image, bind, gets, modify, call. simpl.
  rewrite Ho. simpl. destruct (shape2 (np_copy o)); split; simpl; rewrite ?Ho; eauto.
Qed.

Lemma image_ok_get (img : Image.t) :
  image_ok img -> image_ok (snd (Image.current_image img)).
Proof.
  intros H. unfold Image.current_image, bind, gets, call. simpl.
  now destruct (Image.copy_of (Image._current_image img)).
Qed.

(** A method that keeps an image's buffers keeps every allocated image. *)
Lemma on_image_ok_at {A : Type} (r : ref) (m : M Image.t A) (w : World) (r0 : ref) :
  (forall img, image_ok img -> image_ok (snd (m img))) ->
  ok_at w r0 -> ok_at (snd (on_image r m w)) r0.
Proof.
  intros Hm (img0 & Hr0 & Hok). unfold on_image, ok_at.
  destruct (heap w !! r) as [img|] eqn:Hr; [|simpl; eauto].
  destruct (m img) as [res img'] eqn:Hmi. simpl.
  destruct (decide (r = r0)) as [->|Hne].
  - rewrite lookup_insert_eq. exists img'. split; [reflexivity|].
    rewrite Hr in Hr0. injection Hr0 as ->.
    specialize (Hm img0 Hok). now rewrite Hmi in Hm.
  - rewrite lookup_insert_ne by exact Hne. eauto.
Qed.

Lemma app_eta (s : App.t) :
  App.mk (App.world s) (App._image s) (App._original_for_sliders s) = s.
Proof. now destruct s. Qed.

(** The buffer a valid reference holds. *)
Lemma ok_at_buffer (w : World) (r : ref) :
  ok_at w r -> exists img b, heap w !! r = Some img /\ Image._current_image img = Some b /\
                             is_Some (Image._original_image img).
Proof. intros (img & Hr & Ho & [b Hb]). eauto. Qed.

(** [_apply_filter_permanent] on a loaded document: the manager's
    [apply_filter], then the baseline follows the buffer when it returned
    [True]. *)
Lemma apply_permanent_loaded (s : App.t) (filter_key : string) (kw : kwargs) (r : ref) :
  App._image s = Some r ->
  FilterManager._current_image (manager (App.world s)) = Some r ->
  ok_at (App.world s) r ->
  let out := Manager.apply_filter filter_key kw (App.world s) in
  snd (App._apply_filter_permanent filter_key kw s) =
  App.mk (snd out) (Some r)
    (match fst out with
     | Ok true => document_buffer (snd out)
     | _ => App._original_for_sliders s
     end)
  /\ ok_at (snd out) r
  /\ FilterManager._current_image (manager (snd out)) = Some r.
Proof.
  destruct s as [w image old]. simpl. intros -> Hc Hok.
  destruct (ok_at_buffer _ _ Hok) as (img & b & Hr & Hb & Ho).
  unfold App._apply_filter_permanent, bind, gets. simpl.
  unfold App.on_world at 1. simpl.
  destruct (FilterManager._registry (manager w) !! filter_key) as [f|] eqn:Hk.
  2: { rewrite (apply_filter_unknown _ _ _ Hk). simpl. auto. }
  rewrite (apply_filter_loaded _ filter_key kw r img b f Hc Hr Hb Hk).
  destruct (apply f b kw) as [p|e].
  - destruct (shape2 p) as [hw|e]; simpl.
    + unfold App.on_world. simpl.
      erewrite on_image_get by (simpl; apply lookup_insert_eq). simpl.
      unfold App.set_original_for_sliders, modify. simpl.
      unfold document_buffer. simpl. rewrite lookup_insert_eq. simpl.
      split; [reflexivity|]. split; [|reflexivity].
      eexists. split; [apply lookup_insert_eq|]. split; simpl; eauto.
    + split; [reflexivity|]. split; [|exact Hc].
      eexists. split; [apply lookup_insert_eq|]. split; simpl; eauto.
  - simpl. split; [reflexivity|]. split; [|exact Hc].
    exists img. repeat split; eauto.
Qed.

Lemma image_init_ok (cv : OpenCV) (path : string) (img : Image.t) :
  Image.__init__ cv path = Ok img ->
  exists image, Image._current_image img = Some image /\
                Image._original_image img = Some image /\
                imread cv path = Some image.
Proof.
  unfold Image.__init__, Image._load_image, bind, gets, modify, call, raise. simpl.
  destruct (imread cv path) as [image|]; [|discriminate].
  destruct (shape2 image) as [[h w]|e]; [|discriminate].
  intros H. injection H as <-. exists image. auto.
Qed.

(** [_open_image] when the file decodes: a new object, named by the window
    and by the manager, both stacks emptied, the baseline set. *)
Lemma open_image_loaded (cv : OpenCV) (path : string) (s : App.t) (img : Image.t) (c : ndarray) :
  path <> "" ->
  Image.__init__ cv path = Ok img ->
  Image._current_image img = Some c ->
  App._open_image cv path s =
  (Ok tt,
   App.mk
     (mk_World (<[next_ref (App.world s) := img]> (heap (App.world s)))
        (S (next_ref (App.world s)))
        (FilterManager.mk (FilterManager._registry (manager (App.world s)))
           (FilterManager._history (manager (App.world s)))
           (Some (next_ref (App.world s))) [] []))
     (Some (next_ref (App.world s))) (Some c)).
Proof.
  intros Hp Hinit Hc. destruct s as [w image old]. unfold App._open_image.
  apply String.eqb_neq in Hp. rewrite Hp.
  unfold try_except, bind, call. rewrite Hinit.
  unfold App.on_world, alloc, App.set_image, Manager.set_current_image, bind, modify. simpl.
  unfold_setters.
  erewrite on_image_get by (simpl; apply lookup_insert_eq). rewrite Hc. reflexivity.
Qed.

Lemma open_image_failed (cv : OpenCV) (path : string) (s : App.t) :
  path = "" \/ (exists e, Image.__init__ cv path = Raise e) ->
  App._open_image cv path s = (Ok tt, s).
Proof.
  unfold App._open_image. intros [->|[e He]]; [reflexivity|].
  destruct (String.eqb path ""); [reflexivity|].
  unfold try_except, bind, call, ret. now rewrite He.
Qed.

Lemma app_ok_transfer (s s' : App.t) :
  same_session s s' ->
  (forall r0, ok_at (App.world s) r0 -> ok_at (App.world s') r0) ->
  app_ok s -> app_ok s'.
Proof.
  intros (Hm & Hi & Ho & _) Hok [Ha Hb]. unfold app_ok. rewrite Hm, Hi, Ho.
  split; [exact Ha|]. destruct (App._image s) as [r|]; [|exact Hb].
  destruct Hb as [Hr Hs]. auto.
Qed.

Lemma preview_ok_at (filter_key : string) (kw : kwargs) (r : ref)
    (baseline : ndarray) (s : App.t) (r0 : ref) :
  ok_at (App.world s) r0 -> ok_at (App.world (snd (App.preview filter_key kw r baseline s))) r0.
Proof.
  destruct s as [w image old]. intros Hok.
  unfold App.preview, try_except, bind, App.on_world, Manager.get_filter, gets, call, raise, ret.
  simpl. destruct (FilterManager._registry (manager w) !! filter_key) as [f|]; [|exact Hok].
  destruct (apply f baseline kw) as [filtered|e]; [|exact Hok].
  cbn [App.world App._image App._original_for_sliders].
  pose proof (on_image_ok_at r (Image.set_current_image filtered) w r0
                (image_ok_set filtered) Hok) as H.
  destruct (on_image r (Image.set_current_image filtered) w) as [[u|e] w']; exact H.
Qed.

Lemma on_move_ok (m : slider_move) (s : App.t) : app_ok s -> app_ok (snd (on_move m s)).
Proof.
  apply app_ok_transfer; [apply on_move_same_session|].
  intros r0 Hok. rewrite on_move_unfold.
  destruct (App.slider_target s) as [[r baseline]|]; [|exact Hok].
  destruct (preview_request m) as [[k kw]|e]; [|exact Hok].
  now apply preview_ok_at.
Qed.

Lemma commit_ok (s : App.t) : app_ok s -> app_ok (snd (App._commit_slider_changes s)).
Proof.
  destruct s as [w image old]. intros [Ha Hb]. simpl in *.
  unfold App._commit_slider_changes, bind, gets. simpl.
  destruct image as [r|]; [|split; assumption].
  destruct Hb as [Hok Hs]. destruct (ok_at_buffer _ _ Hok) as (img & b & Hr & Hc & Ho).
  unfold App.on_world. cbn [App.world App._image App._original_for_sliders].
  rewrite (on_image_get w r img Hr), Hc. simpl.
  split; [exact Ha|]. split; [exact Hok|eauto].
Qed.

Lemma undo_ok (s : App.t) : app_ok s -> app_ok (snd (App._undo s)).
Proof.
  destruct s as [w image old]. intros [Ha Hb]. simpl in *.
  assert (Hs : snd (App._undo (App.mk w image old)) = App.mk (snd (Manager.undo w)) image old).
  { unfold App._undo, bind, App.on_world, ret. simpl.
    now destruct (Manager.undo w) as [[b|e] w']. }
  rewrite Hs. clear Hs.
  destruct (undo_cases w) as [->|(r & img & b & u & x & Hc & Hr & Hbuf & Hu)];
    [split; assumption|].
  destruct (undo_loaded w r img b x u Hc Hr Hbuf Hu) as [-> _].
  rewrite Hc in Ha. subst image. destruct Hb as [(img0 & Hr0 & Hok0 & _) Hs].
  rewrite Hr in Hr0. injection Hr0 as <-.
  split; [reflexivity|]. simpl. split; [|exact Hs].
  eexists. split; [apply lookup_insert_eq|].
  destruct (shape2 x); split; simpl; eauto.
Qed.

Lemma redo_ok (s : App.t) : app_ok s -> app_ok (snd (App._redo s)).
Proof.
  destruct s as [w image old]. intros [Ha Hb]. simpl in *.
  assert (Hs : snd (App._redo (App.mk w image old)) = App.mk (snd (Manager.redo w)) image old).
  { unfold App._redo, bind, App.on_world, ret. simpl.
    now destruct (Manager.redo w) as [[b|e] w']. }
  rewrite Hs. clear Hs.
  destruct (redo_cases w) as [->|(r & img & b & u & x & Hc & Hr & Hbuf & Hu)];
    [split; assumption|].
  destruct (redo_loaded w r img b x u Hc Hr Hbuf Hu) as [-> _].
  rewrite Hc in Ha. subst image. destruct Hb as [(img0 & Hr0 & Hok0 & _) Hs].
  rewrite Hr in Hr0. injection Hr0 as <-.
  split; [reflexivity|]. simpl. split; [|exact Hs].
  eexists. split; [apply lookup_insert_eq|].
  destruct (shape2 x); split; simpl; eauto.
Qed.

Lemma reset_ok (s : App.t) : app_ok s -> app_ok (snd (App._reset_to_original s)).
Proof.
  destruct s as [w image old]. intros [Ha Hb]. simpl in *.
  unfold App._reset_to_original, bind, gets. simpl.
  destruct image as [r|]; [|split; assumption].
  destruct Hb as [Hok Hs].
  pose proof (on_image_ok_at r Image.reset_to_original w r image_ok_reset Hok) as Hok1.
  pose proof (on_image_heap r Image.reset_to_original w) as [Hm1 _].
  unfold App.on_world at 1. cbn [App.world App._image App._original_for_sliders].
  destruct (on_image r Image.reset_to_original w) as [[u|e] w1]; simpl in *.
  - destruct (ok_at_buffer _ _ Hok1) as (img & b & Hr & Hc & Ho).
    unfold App.on_world. cbn [App.world App._image App._original_for_sliders].
    rewrite (on_image_get w1 r img Hr), Hc. simpl.
    split; [simpl; now rewrite Hm1|]. simpl. split; [exact Hok1|eauto].
  - split; [simpl; now rewrite Hm1|]. simpl. split; assumption.
Qed.

Lemma apply_permanent_ok (s : App.t) (filter_key : string) (kw : kwargs) :
  app_ok s -> app_ok (snd (App._apply_filter_permanent filter_key kw s)).
Proof.
  intros [Ha Hb]. destruct (App._image s) as [r|] eqn:Hi.
  - destruct Hb as [Hok Hs].
    destruct (apply_permanent_loaded s filter_key kw r Hi (eq_sym Ha) Hok) as (-> & Hok' & Hc').
    split; [simpl; now rewrite Hc'|]. simpl. split; [exact Hok'|].
    destruct (fst (Manager.apply_filter filter_key kw (App.world s))) as [[|]|e]; try exact Hs.
    destruct (ok_at_buffer _ _ Hok') as (img & b & Hr & Hc & Ho).
    unfold document_buffer. rewrite Hc', Hr, Hc. eauto.
  - unfold App._apply_filter_permanent, bind, gets. rewrite Hi. simpl.
    split; [now rewrite Hi|]. now rewrite Hi.
Qed.

Lemma open_ok (cv : OpenCV) (path : string) (s : App.t) :
  app_ok s -> app_ok (snd (App._open_image cv path s)).
Proof.
  intros Hok. destruct (String.eqb path "") eqn:Hp.
  { apply String.eqb_eq in Hp. rewrite open_image_failed by auto. exact Hok. }
  apply String.eqb_neq in Hp.
  destruct (Image.__init__ cv path) as [img|e] eqn:Hinit.
  2: { rewrite open_image_failed by eauto. exact Hok. }
  destruct (image_init_ok cv path img Hinit) as (image & Hc & Ho & _).
  rewrite (open_image_loaded cv path s img image Hp Hinit Hc). simpl.
  split; [reflexivity|]. simpl. split; [|eauto].
  exists img. split; [apply lookup_insert_eq|]. split; eauto.
Qed.

Lemma handle_ok (cv : OpenCV) (e : event) (s : App.t) :
  app_ok s -> app_ok (snd (handle cv e s)).
Proof.
  destruct e; simpl.
  - apply open_ok.
  - apply apply_permanent_ok.
  - apply on_move_ok.
  - apply commit_ok.
  - apply undo_ok.
  - apply redo_ok.
  - apply reset_ok.
Qed.

Lemma run_events_ok (cv : OpenCV) (events : list event) (s : App.t) :
  app_ok s -> app_ok (run_events cv events s).
Proof.
  revert s. induction events as [|e rest IH]; intros s Hok; [exact Hok|].
  simpl. apply IH, handle_ok, Hok.
Qed.

(** X23.  In every state the window reaches from start-up, whatever the user does
    (open, toolbar filters, slider movements, commit, undo, redo, reset, in
    any order, including the calls that fail or raise), the window and the
    manager hold the same [Image] object, so both see the same buffer; an
    open document always has both its buffers and a baseline, and without a
    document there is no baseline and no history. *)
Theorem window_and_manager_share_image (cv : OpenCV) (events : list event) :
  let s := run_events cv events (App.__init__ cv) in
  app_ok s /\ shown s = document_buffer (App.world s) /\
  (is_Some (shown s) <-> is_Some (App._image s)).
Proof.
  cbv zeta.
  assert (Hok : app_ok (run_events cv events (App.__init__ cv))).
  { apply run_events_ok. split; [reflexivity|]. simpl. auto. }
  split; [exact Hok|]. destruct Hok as [Ha Hb].
  unfold shown, document_buffer. rewrite <- Ha.
  split; [reflexivity|].
  destruct (App._image (run_events cv events (App.__init__ cv))) as [r|].
  - destruct Hb as [(img & Hr & _ & Hc) _]. rewrite Hr. split; eauto.
  - split; intros [x Hx]; discriminate.
Qed.

Lemma image_init_cases (cv : OpenCV) (path : string) :
  Image.__init__ cv path =
  match imread cv path with
  | None => Raise ValueError
  | Some image =>
      match shape2 image with
      | Ok (h, w) => Ok (Image.mk path (Some image) (Some image) w h)
      | Raise e => Raise e
      end
  end.
Proof.
  unfold Image.__init__, Image._load_image, bind, gets, modify, call, raise. simpl.
  destruct (imread cv path) as [image|]; [|reflexivity].
  now destruct (shape2 image) as [[h w]|e].
Qed.

(** X24.  Opening a file.  A cancelled dialog or a file that does not decode
    changes nothing at all.  A file that decodes becomes the document: it is
    on display, it is the baseline, both stacks are empty, and the log and
    the registry are kept. *)
Theorem opening_an_image (cv : OpenCV) (path : string) (s : App.t) :
  (path = "" \/ imread cv path = None -> App._open_image cv path s = (Ok tt, s)) /\
  (forall image h w,
     path <> "" -> imread cv path = Some image -> shape2 image = Ok (h, w) ->
     let s' := snd (App._open_image cv path s) in
     fst (App._open_image cv path s) = Ok tt /\
     shown s' = Some image /\
     document_buffer (App.world s') = Some image /\
     App._original_for_sliders s' = Some image /\
     FilterManager._undo_stack (manager (App.world s')) = [] /\
     FilterManager._redo_stack (manager (App.world s')) = [] /\
     FilterManager._history (manager (App.world s')) =
       FilterManager._history (manager (App.world s)) /\
     FilterManager._registry (manager (App.world s')) =
       FilterManager._registry (manager (App.world s))).
Proof.
  split.
  - intros [Hp|Hn]; apply open_image_failed; [now left|right].
    exists ValueError. now rewrite image_init_cases, Hn.
  - intros image h w Hp Hi Hs. cbv zeta.
    assert (Hinit : Image.__init__ cv path = Ok (Image.mk path (Some image) (Some image) w h))
      by now rewrite image_init_cases, Hi, Hs.
    rewrite (open_image_loaded cv path s _ image Hp Hinit eq_refl).
    unfold shown, document_buffer. simpl. rewrite lookup_insert_eq. simpl. repeat split.
Qed.

(** X25.  A slider movement that cannot be shown leaves everything as it was: with
    no document or no baseline the handler returns at once; a position that
    does not convert to a number raises out of the handler before anything
    is touched; and a missing filter or a filter that raises is swallowed by
    the handler, the previous preview staying on display. *)
Theorem failed_preview_changes_nothing (m : slider_move) (s : App.t) :
  (App.slider_target s = None -> on_move m s = (Ok tt, s)) /\
  (forall r baseline e,
     App.slider_target s = Some (r, baseline) ->
     preview_request m = Raise e -> on_move m s = (Raise e, s)) /\
  (forall r baseline filter_key kw,
     App.slider_target s = Some (r, baseline) ->
     preview_request m = Ok (filter_key, kw) ->
     (FilterManager._registry (manager (App.world s)) !! filter_key = None \/
      exists f e, FilterManager._registry (manager (App.world s)) !! filter_key = Some f /\
                  apply f baseline kw = Raise e) ->
     on_move m s = (Ok tt, s)).
Proof.
  repeat split.
  - intros Ht. now rewrite on_move_unfold, Ht.
  - intros r baseline e Ht Hq. now rewrite on_move_unfold, Ht, Hq.
  - intros r baseline filter_key kw Ht Hq Hfail. rewrite on_move_unfold, Ht, Hq.
    destruct s as [w image old].
    unfold App.preview, try_except, bind, App.on_world, Manager.get_filter, gets, call, raise, ret.
    simpl in *. destruct Hfail as [->|(f & e & -> & Hf)]; [reflexivity|].
    now rewrite Hf.
Qed.

(** X26.  The toolbar path: [_apply_filter_permanent] runs the manager's
    [apply_filter]; when that returns [True] the baseline becomes the new
    buffer on display, and when it returns [False] the baseline is kept. *)
Theorem toolbar_filter_moves_baseline (s : App.t) (filter_key : string) (kw : kwargs) (r : ref) :
  App._image s = Some r ->
  FilterManager._current_image (manager (App.world s)) = Some r ->
  ok_at (App.world s) r ->
  let out := Manager.apply_filter filter_key kw (App.world s) in
  let s' := snd (App._apply_filter_permanent filter_key kw s) in
  App.world s' = snd out /\
  (fst out = Ok true ->
   App._original_for_sliders s' = shown s' /\ is_Some (shown s')) /\
  (fst out = Ok false -> App._original_for_sliders s' = App._original_for_sliders s).
Proof.
  intros Hi Hc Hok. cbv zeta.
  destruct (apply_permanent_loaded s filter_key kw r Hi Hc Hok) as (-> & Hok' & Hc').
  simpl. split; [reflexivity|]. split; intros ->; [|reflexivity].
  destruct (ok_at_buffer _ _ Hok') as (img & b & Hr & Hb & Ho).
  unfold shown, document_buffer. simpl. rewrite Hc', Hr, Hb. eauto.
Qed.

Lemma app_undo_redo_frame (s : App.t) :
  let frame (s' : App.t) :=
    App._image s' = App._image s /\
    App._original_for_sliders s' = App._original_for_sliders s /\
    FilterManager._registry (manager (App.world s')) =
      FilterManager._registry (manager (App.world s)) /\
    forall r0, is_Some (heap (App.world s) !! r0) -> is_Some (heap (App.world s') !! r0) in
  frame (snd (App._undo s)) /\ frame (snd (App._redo s)).
Proof.
  destruct s as [w image old]. cbv zeta. split.
  - assert (Hs : snd (App._undo (App.mk w image old)) = App.mk (snd (Manager.undo w)) image old).
    { unfold App._undo, bind, App.on_world, ret. simpl.
      now destruct (Manager.undo w) as [[b|e] w']. }
    rewrite Hs. simpl.
    destruct (undo_cases w) as [->|(r & img & b & u & x & Hc & Hr & Hbuf & Hu)]; [auto|].
    destruct (undo_loaded w r img b x u Hc Hr Hbuf Hu) as [-> _]. simpl.
    repeat split. intros r0 H0. destruct (decide (r = r0)) as [->|Hne].
    + rewrite lookup_insert_eq. eauto.
    + now rewrite lookup_insert_ne.
  - assert (Hs : snd (App._redo (App.mk w image old)) = App.mk (snd (Manager.redo w)) image old).
    { unfold App._redo, bind, App.on_world, ret. simpl.
      now destruct (Manager.redo w) as [[b|e] w']. }
    rewrite Hs. simpl.
    destruct (redo_cases w) as [->|(r & img & b & u & x & Hc & Hr & Hbuf & Hu)]; [auto|].
    destruct (redo_loaded w r img b x u Hc Hr Hbuf Hu) as [-> _]. simpl.
    repeat split. intros r0 H0. destruct (decide (r = r0)) as [->|Hne].
    + rewrite lookup_insert_eq. eauto.
    + now rewrite lookup_insert_ne.
Qed.

(** X27.  The window's undo and redo do not move the sliders' baseline: after
    either, a slider preview that goes through still shows the filter
    applied to the baseline stored before, not to the buffer that undo or
    redo put on display. *)
Theorem preview_after_undo_uses_old_baseline (s : App.t) (r : ref) (baseline result : ndarray)
    (f : FilterProcessor) (m : slider_move) (filter_key : string) (kw : kwargs) :
  App.slider_target s = Some (r, baseline) ->
  is_Some (heap (App.world s) !! r) ->
  preview_request m = Ok (filter_key, kw) ->
  FilterManager._registry (manager (App.world s)) !! filter_key = Some f ->
  apply f baseline kw = Ok result ->
  App._original_for_sliders (snd (App._undo s)) = Some baseline /\
  shown (snd (on_move m (snd (App._undo s)))) = Some result /\
  App._original_for_sliders (snd (App._redo s)) = Some baseline /\
  shown (snd (on_move m (snd (App._redo s)))) = Some result.
Proof.
  intros Ht Hr Hq Hk Hf.
  destruct (app_undo_redo_frame s) as [(Hi1 & Ho1 & Hg1 & Hh1) (Hi2 & Ho2 & Hg2 & Hh2)].
  assert (Hb : App._original_for_sliders s = Some baseline /\ App._image s = Some r).
  { unfold App.slider_target in Ht. destruct (App._image s); [|discriminate].
    destruct (App._original_for_sliders s); [|discriminate]. now injection Ht as -> ->. }
  destruct Hb as [Hb Hi].
  destruct (Hh1 r Hr) as [img1 Hr1]. destruct (Hh2 r Hr) as [img2 Hr2].
  assert (Ht1 : App.slider_target (snd (App._undo s)) = Some (r, baseline))
    by (unfold App.slider_target; now rewrite Hi1, Ho1, Hi, Hb).
  assert (Ht2 : App.slider_target (snd (App._redo s)) = Some (r, baseline))
    by (unfold App.slider_target; now rewrite Hi2, Ho2, Hi, Hb).
  rewrite <- Hg1 in Hk at 1.
  pose proof (on_move_shows _ r baseline result img1 f m filter_key kw Ht1 Hr1 Hq Hk Hf) as S1.
  rewrite Hg1, <- Hg2 in Hk.
  pose proof (on_move_shows _ r baseline result img2 f m filter_key kw Ht2 Hr2 Hq Hk Hf) as S2.
  rewrite Ho1, Ho2, Hb. auto.
Qed.

(** X28.  Reset to original puts the original buffer on display and writes no
    history: the manager (registry, log, both stacks) is untouched, so the
    reset cannot be undone and an undo after it pops what was there before.
    The baseline becomes the original as well. *)
Theorem reset_to_original_outcome (s : App.t) (r : ref) (img : Image.t) (o : ndarray) :
  App._image s = Some r ->
  heap (App.world s) !! r = Some img ->
  Image._original_image img = Some o ->
  let s' := snd (App._reset_to_original s) in
  shown s' = Some o /\
  manager (App.world s') = manager (App.world s) /\
  forall hw, shape2 o = Ok hw ->
    fst (App._reset_to_original s) = Ok tt /\ App._original_for_sliders s' = Some o.
Proof.
  destruct s as [w image old]. simpl. intros -> Hr Ho.
  assert (Hres : App._reset_to_original (App.mk w (Some r) old) =
    match shape2 o with
    | Ok hw =>
        (Ok tt,
         App.mk (mk_World (<[r := Image.with_dims hw (Image.with_current (Some o) img)]> (heap w))
                   (next_ref w) (manager w)) (Some r) (Some o))
    | Raise e =>
        (Raise e,
         App.mk (mk_World (<[r := Image.with_current (Some o) img]> (heap w))
                   (next_ref w) (manager w)) (Some r) old)
    end).
  { unfold App._reset_to_original, bind, gets. simpl.
    unfold App.on_world at 1. cbn [App.world App._image App._original_for_sliders].
    unfold on_image at 1. rewrite Hr.
    unfold Image.reset_to_original, Image.original_image, bind, gets, modify, call. simpl.
    rewrite Ho. simpl. unfold np_copy.
    destruct (shape2 o) as [hw|e]; simpl; [|reflexivity].
    unfold App.on_world. cbn [App.world App._image App._original_for_sliders].
    erewrite on_image_get by (simpl; apply lookup_insert_eq). reflexivity. }
  rewrite Hres. unfold shown.
  destruct (shape2 o) as [hw|e]; simpl; rewrite lookup_insert_eq; simpl; repeat split;
    discriminate.
Qed.

(** ** The further properties at work on the sample session *)

Lemma undo_then_redo_witness :
  let w := App.world Demo.edited in
  let w' := snd (Manager.redo (snd (Manager.undo w))) in
  document_buffer w' = document_buffer w /\
  FilterManager._undo_stack (manager w') = FilterManager._undo_stack (manager w) /\
  FilterManager._redo_stack (manager w') = FilterManager._redo_stack (manager w).
Proof.
  assert (H : fst (Manager.undo (App.world Demo.edited)) = Ok true) by (vm_compute; reflexivity).
  exact (undo_then_redo (App.world Demo.edited) H).
Defined.

Lemma redo_then_undo_witness :
  let w := App.world Demo.undone in
  let w' := snd (Manager.undo (snd (Manager.redo w))) in
  document_buffer w' = document_buffer w /\
  FilterManager._undo_stack (manager w') = FilterManager._undo_stack (manager w) /\
  FilterManager._redo_stack (manager w') = FilterManager._redo_stack (manager w).
Proof.
  assert (H : fst (Manager.redo (App.world Demo.undone)) = Ok true) by (vm_compute; reflexivity).
  exact (redo_then_undo (App.world Demo.undone) H).
Defined.

Lemma apply_undo_redo_witness :
  let w := App.world Demo.opened in
  let w' := snd (Manager.apply_filter "brightness" [("value", PInt 10)] w) in
  document_buffer (snd (Manager.undo w')) = document_buffer w /\
  document_buffer (snd (Manager.redo (snd (Manager.undo w')))) = document_buffer w'.
Proof.
  intros w w'.
  assert (Happ : Manager.apply_filter "brightness" [("value", PInt 10)] w = (Ok true, w'))
    by (apply pair_of_fst; vm_compute; reflexivity).
  pose proof (apply_undo_redo w w' "brightness" [("value", PInt 10)] Happ) as H.
  split; [exact (proj1 H)|exact (proj1 (proj2 H))].
Defined.

Lemma failed_apply_keeps_undo_and_log_witness :
  let w := App.world Demo.undone in
  let w' := snd (Manager.apply_filter "resize" [("scale", PFloat 0%float)] w) in
  FilterManager._undo_stack (manager w') = FilterManager._undo_stack (manager w) /\
  FilterManager._history (manager w') = FilterManager._history (manager w).
Proof.
  intros w w'.
  assert (Hdoc : FilterManager._current_image (manager w) = None \/ is_Some (document_buffer w))
    by (right; exists Demo.photo; vm_compute; reflexivity).
  assert (Hfalse : fst (Manager.apply_filter "resize" [("scale", PFloat 0%float)] w) = Ok false)
    by (vm_compute; reflexivity).
  pose proof (failed_apply_keeps_undo_and_log w "resize" [("scale", PFloat 0%float)]
                Hdoc Hfalse) as H.
  split; [exact (proj1 H)|exact (proj1 (proj2 H))].
Defined.

Lemma can_undo_can_redo_predict_witness :
  Manager.undo (Manager.__init__ Demo.cv) = (Ok false, Manager.__init__ Demo.cv).
Proof.
  apply (proj1 (can_undo_can_redo_predict (Manager.__init__ Demo.cv))).
  vm_compute. reflexivity.
Defined.

Lemma register_then_get_witness :
  fst (Manager.get_filter "blur"
         (snd (Manager.register_filter "sharpen" FlipFilter (Manager.__init__ Demo.cv)))) =
  fst (Manager.get_filter "blur" (Manager.__init__ Demo.cv)).
Proof.
  apply (proj1 (proj2 (register_then_get (Manager.__init__ Demo.cv) "sharpen" "blur" FlipFilter))).
  discriminate.
Defined.

Lemma new_manager_state_witness : In "blur" default_keys.
Proof.
  apply (proj1 (proj1 (new_manager_state Demo.cv "blur"))). vm_compute. reflexivity.
Defined.

Lemma image_constructor_witness :
  Image.__init__ Demo.cv "missing.png" = Raise ValueError.
Proof.
  apply (proj2 (image_constructor Demo.cv "missing.png" Demo.loaded_image)). reflexivity.
Defined.

Lemma reset_after_edits_witness :
  Image._current_image
    (snd (Image.reset_to_original (set_all [Demo.brighter; Demo.turned] Demo.loaded_image))) =
  Some Demo.photo.
Proof.
  assert (Ho : Image._original_image Demo.loaded_image = Some Demo.photo) by reflexivity.
  exact (proj1 (reset_after_edits Demo.loaded_image Demo.photo [Demo.brighter; Demo.turned] Ho)).
Defined.

Lemma update_original_rebases_witness :
  Image._current_image
    (snd (Image.reset_to_original (snd (Image.update_original Demo.edited_image)))) =
  Some Demo.brighter.
Proof.
  assert (Hc : Image._current_image Demo.edited_image = Some Demo.brighter) by reflexivity.
  exact (proj1 (proj2 (proj2 (proj2 (update_original_rebases Demo.edited_image Demo.brighter Hc))))).
Defined.

Lemma filters_reject_empty_buffer_witness :
  apply (GrayscaleFilter Demo.cv) Demo.blank [] = Raise ValueError.
Proof.
  apply (filters_reject_empty_buffer Demo.cv (GrayscaleFilter Demo.cv) Demo.blank []);
    [left; reflexivity|reflexivity|reflexivity|reflexivity].
Defined.

Lemma brightness_adds_and_clips_witness :
  exists result,
    apply (BrightnessAdjustment Demo.cv) Demo.photo [("value", PInt 10)] = Ok result /\
    shape result = shape Demo.photo /\
    length (data result) = length (data Demo.photo) /\
    samples_8bit result /\
    (samples_8bit Demo.photo -> 10 <= 32512 ->
     data result = map (fun p => clip_u8 (p + 10)) (data Demo.photo)).
Proof.
  apply (brightness_adds_and_clips Demo.cv Demo.photo 10); [reflexivity|lia].
Defined.

Lemma brightness_zero_is_identity_witness :
  apply (BrightnessAdjustment Demo.cv) Demo.photo [("value", PInt 0)] = Ok Demo.photo /\
  apply (BrightnessAdjustment Demo.cv) Demo.photo [] = Ok Demo.photo.
Proof.
  apply (brightness_zero_is_identity Demo.cv Demo.photo); [reflexivity|].
  unfold samples_8bit. simpl. repeat constructor; lia.
Defined.

Lemma blur_slider_kernel_witness :
  preview_request (MoveBlur 4%float) = Ok ("blur", [("intensity", PInt 5)]) /\
  kernel_size 5 = kernel_size 4.
Proof.
  assert (Hv : py_int_of_float 4%float = Ok 4) by (vm_compute; reflexivity).
  pose proof (blur_slider_kernel Demo.cv Demo.photo 4%float 4 Hv) as H.
  split; [exact (proj1 H)|exact (proj1 (proj2 H))].
Defined.

Lemma validated_params_are_safe_witness : 1 <= 4 <= 50.
Proof.
  apply (proj1 (validated_params_are_safe Demo.cv Demo.photo 4 0 "blur" [])). reflexivity.
Defined.

Lemma resize_target_size_witness :
  apply (ResizeFilter Demo.cv) Demo.photo [("scale", PInt 0)] = Raise cv2_error.
Proof.
  assert (Hv : validate_image Demo.photo = true) by reflexivity.
  exact (proj2 (resize_target_size Demo.cv Demo.photo [] 1 1 0 1 2 [3%nat] Hv) eq_refl).
Defined.



Lemma opening_an_image_witness :
  shown (snd (App._open_image Demo.cv "photo.png" (App.__init__ Demo.cv))) = Some Demo.photo /\
  App._original_for_sliders (snd (App._open_image Demo.cv "photo.png" (App.__init__ Demo.cv))) =
    Some Demo.photo.
Proof.
  assert (Hp : "photo.png" <> "") by discriminate.
  assert (Hi : imread Demo.cv "photo.png" = Some Demo.photo) by reflexivity.
  assert (Hs : shape2 Demo.photo = Ok (1%nat, 2%nat)) by reflexivity.
  pose proof (proj2 (opening_an_image Demo.cv "photo.png" (App.__init__ Demo.cv))
                Demo.photo 1%nat 2%nat Hp Hi Hs) as H.
  split; [exact (proj1 (proj2 H))|exact (proj1 (proj2 (proj2 (proj2 H))))].
Defined.

Lemma failed_preview_changes_nothing_witness :
  on_move (MoveBrightness 10%float) (App.__init__ Demo.cv) = (Ok tt, App.__init__ Demo.cv).
Proof.
  apply (proj1 (failed_preview_changes_nothing (MoveBrightness 10%float) (App.__init__ Demo.cv))).
  reflexivity.
Defined.

Lemma toolbar_filter_moves_baseline_witness :
  let out := Manager.apply_filter "brightness" [("value", PInt 10)] (App.world Demo.opened) in
  App.world Demo.edited = snd out.
Proof.
  assert (Hi : App._image Demo.opened = Some 0%nat) by (vm_compute; reflexivity).
  assert (Hc : FilterManager._current_image (manager (App.world Demo.opened)) = Some 0%nat)
    by (vm_compute; reflexivity).
  assert (Hok : ok_at (App.world Demo.opened) 0%nat).
  { exists Demo.loaded_image. split; [vm_compute; reflexivity|].
    split; eexists; reflexivity. }
  exact (proj1 (toolbar_filter_moves_baseline Demo.opened "brightness" [("value", PInt 10)]
                  0%nat Hi Hc Hok)).
Defined.

Lemma preview_after_undo_uses_old_baseline_witness :
  App._original_for_sliders (snd (App._undo Demo.edited)) = Some Demo.brighter /\
  shown (snd (on_move (MoveBrightness 10%float) (snd (App._undo Demo.edited)))) =
    Some Demo.brightest.
Proof.
  assert (Ht : App.slider_target Demo.edited = Some (0%nat, Demo.brighter))
    by (vm_compute; reflexivity).
  assert (Hr : is_Some (heap (App.world Demo.edited) !! 0%nat))
    by (exists Demo.edited_image; vm_compute; reflexivity).
  assert (Hq : preview_request (MoveBrightness 10%float) = Ok ("brightness", [("value", PInt 10)]))
    by (vm_compute; reflexivity).
  assert (Hk : FilterManager._registry (manager (App.world Demo.edited)) !! "brightness" =
               Some (BrightnessAdjustment Demo.cv))
    by reflexivity.
  assert (Hf : apply (BrightnessAdjustment Demo.cv) Demo.brighter [("value", PInt 10)] =
               Ok Demo.brightest)
    by (vm_compute; reflexivity).
  pose proof (preview_after_undo_uses_old_baseline Demo.edited 0%nat Demo.brighter Demo.brightest
                (BrightnessAdjustment Demo.cv) (MoveBrightness 10%float)
                "brightness" [("value", PInt 10)] Ht Hr Hq Hk Hf) as H.
  split; [exact (proj1 H)|exact (proj1 (proj2 H))].
Defined.

Lemma reset_to_original_outcome_witness :
  shown (snd (App._reset_to_original Demo.edited)) = Some Demo.photo /\
  manager (App.world (snd (App._reset_to_original Demo.edited))) = manager (App.world Demo.edited).
Proof.
  assert (Hi : App._image Demo.edited = Some 0%nat) by (vm_compute; reflexivity).
  assert (Hr : heap (App.world Demo.edited) !! 0%nat = Some Demo.edited_image)
    by (vm_compute; reflexivity).
  assert (Ho : Image._original_image Demo.edited_image = Some Demo.photo) by reflexivity.
  pose proof (reset_to_original_outcome Demo.edited 0%nat Demo.edited_image Demo.photo
                Hi Hr Ho) as H.
  split; [exact (proj1 H)|exact (proj1 (proj2 H))].
Defined.
